(** * Categorical encoding and the prediction request of the flight
      satisfaction app

    The development embeds the two source files of the repository:

    - [src/categorical_encoder.py]: [encode_categorical], the pass that
      replaces every object (string) column of a pandas frame by its
      categorical codes, in place;
    - [app-prod.py]: [user_input_features], [make_prediction] and the
      handler of the predict button.

    pandas, scikit-learn, SHAP, LIME and Streamlit are libraries of the
    app.  The three pandas operations the encoder calls
    ([select_dtypes], [pd.Categorical(...).codes], item assignment) are
    modelled after their documented behaviour in module [Pandas]; the
    fitted pipeline, the model and the two explainers are arguments of
    [make_prediction], as they are in the source. *)

From Stdlib Require Import String Ascii ZArith Lia Bool DecimalString.
From Stdlib Require Import OrdersEx Sorted Permutation RelationClasses List.
Import ListNotations.

Local Open Scope string_scope.
Local Open Scope Z_scope.

(** ** Python exceptions and mutation *)

Module Py.

(** The exception classes that occur; [str(e)] is the carried message.
    Only subclasses of [Exception] are modelled: an interrupt or an
    interpreter exit is not a failure of the code. *)
Inductive exn_class :=
| AttributeError
| KeyError
| ValueError
| IndexError
| OtherException (name : string).

Record exn := mk_exn { exn_cls : exn_class; exn_str : string }.

Inductive result (A : Type) :=
| Ok (a : A)
| Raise (e : exn).
Arguments Ok {A} a.
Arguments Raise {A} e.

(** A computation over a mutable store [S].  The store that comes out
    is the one left behind: what was mutated before an exception was
    raised stays mutated. *)
Definition M (S A : Type) : Type := S -> S * result A.

Definition ret {S A} (a : A) : M S A := fun s => (s, Ok a).

Definition bind {S A B} (m : M S A) (k : A -> M S B) : M S B :=
  fun s =>
    match m s with
    | (s', Ok a) => k a s'
    | (s', Raise e) => (s', Raise e)
    end.

Definition raise {S A} (e : exn) : M S A := fun s => (s, Raise e).

Definition get {S} : M S S := fun s => (s, Ok s).

Definition put {S} (s' : S) : M S unit := fun _ => (s', Ok tt).

(** A store-free call that may raise. *)
Definition lift {S A} (r : result A) : M S A := fun s => (s, r).

(** [try: body except Exception as e: handler(e)] *)
Definition try_except {S A} (body : M S A) (handler : exn -> M S A) : M S A :=
  fun s =>
    match body s with
    | (s', Ok a) => (s', Ok a)
    | (s', Raise e) => handler e s'
    end.

(** [xs[i]] on a list *)
Definition subscript {A} (xs : list A) (i : nat) : result A :=
  match nth_error xs i with
  | Some x => Ok x
  | None => Raise (mk_exn IndexError "list index out of range")
  end.

(** A natural number as Python prints it. *)
Definition decimal (n : nat) : string :=
  NilZero.string_of_uint (Nat.to_uint n).

(** [a[i]] on a numpy array, along its first axis *)
Definition ndarray_subscript {A} (a : list A) (i : nat) : result A :=
  match nth_error a i with
  | Some x => Ok x
  | None =>
      Raise (mk_exn IndexError
               ("index " ++ decimal i ++ " is out of bounds for axis 0 with size "
                         ++ decimal (length a)))
  end.

End Py.

Import Py.

Declare Scope py_scope.
Delimit Scope py_scope with py.
Notation "x <- m ;; k" := (bind m (fun x => k))
  (at level 61, m at next level, right associativity) : py_scope.
Notation "m ;; k" := (bind m (fun _ => k))
  (at level 61, right associativity) : py_scope.

(** ** The pandas operations of the encoder *)

Module Pandas.

(** *** [pd.Categorical(values).codes]

    With no categories given, the categories are the unique non-missing
    values, sorted; the code of a value is its position in the
    categories, and a missing value has the code -1. *)

Section Categorical.

Context {A : Type} (cmp : A -> A -> comparison).

(** Insertion into the sorted list of the values seen so far. *)
Fixpoint insert (a : A) (l : list A) : list A :=
  match l with
  | [] => [a]
  | b :: l' =>
      match cmp a b with
      | Lt => a :: l
      | Eq => l
      | Gt => b :: insert a l'
      end
  end.

Definition categories (values : list (option A)) : list A :=
  fold_right (fun v acc => match v with
                           | Some a => insert a acc
                           | None => acc
                           end) [] values.

(** Position of [a] in [cats]; -1 when it is not there. *)
Fixpoint get_indexer (cats : list A) (a : A) : Z :=
  match cats with
  | [] => -1
  | c :: cats' =>
      match cmp a c with
      | Eq => 0
      | _ => let i := get_indexer cats' a in
             if i <? 0 then -1 else i + 1
      end
  end.

Definition code_of (cats : list A) (v : option A) : Z :=
  match v with
  | Some a => get_indexer cats a
  | None => -1
  end.

Definition codes (values : list (option A)) : list Z :=
  map (code_of (categories values)) values.

End Categorical.

(** The integer dtype pandas stores the codes in: the narrowest signed
    one whose maximum exceeds the number of categories. *)
Inductive int_dtype := int8 | int16 | int32 | int64.

Definition int_max (d : int_dtype) : Z :=
  match d with
  | int8 => 127
  | int16 => 32767
  | int32 => 2147483647
  | int64 => 9223372036854775807
  end.

Definition coerce_indexer_dtype (ncategories : nat) : int_dtype :=
  let n := Z.of_nat ncategories in
  if n <? int_max int8 then int8
  else if n <? int_max int16 then int16
  else if n <? int_max int32 then int32
  else int64.

(** *** Series and frames

    A column is tagged by its dtype.  An object column holds Python
    strings and missing entries ([None]/[NaN]): it is what pandas makes
    of strings unless told otherwise.  A column of the extension dtype
    [string] holds strings and missing entries too, but is not of dtype
    object.  An integer column holds integers.  A string is its UTF-8
    bytes: their order is the order of the code points, which is how
    Python compares [str].  Float, bool, datetime and category columns,
    and object columns of other Python objects, are not modelled. *)
Inductive Series :=
| ObjectSeries (values : list (option string))
| StringSeries (values : list (option string))
| IntSeries (dtype : int_dtype) (values : list Z).

Definition is_object (s : Series) : bool :=
  match s with
  | ObjectSeries _ => true
  | StringSeries _ => false
  | IntSeries _ _ => false
  end.

Definition len (s : Series) : nat :=
  match s with
  | ObjectSeries vs => length vs
  | StringSeries vs => length vs
  | IntSeries _ vs => length vs
  end.

Definition str_compare : string -> string -> comparison := String_as_OT.compare.

(** [pd.Categorical(series).codes], as the integer column assigned back. *)
Definition Categorical_codes (s : Series) : Series :=
  match s with
  | ObjectSeries vs | StringSeries vs =>
      IntSeries (coerce_indexer_dtype (length (categories str_compare vs)))
                (codes str_compare vs)
  | IntSeries _ vs =>
      let vs' := map Some vs in
      IntSeries (coerce_indexer_dtype (length (categories Z.compare vs')))
                (codes Z.compare vs')
  end.

(** A frame: the length of its index and its labelled columns, in
    order. *)
Record DataFrame := mk_frame {
  nrows : nat;
  columns : list (string * Series)
}.

(** [df.select_dtypes(include=['object']).columns] *)
Definition select_object_columns (df : DataFrame) : list string :=
  map fst (filter (fun c => is_object (snd c)) (columns df)).

(** [df[label]]: the column under the label. *)
Definition getitem (df : DataFrame) (label : string) : result Series :=
  match find (fun c => String.eqb (fst c) label) (columns df) with
  | Some c => Ok (snd c)
  | None => Raise (mk_exn KeyError ("'" ++ label ++ "'"))
  end.

Fixpoint replace_column (label : string) (s : Series)
         (cols : list (string * Series)) : list (string * Series) :=
  match cols with
  | [] => [(label, s)]
  | c :: cols' =>
      if String.eqb (fst c) label then (label, s) :: cols'
      else c :: replace_column label s cols'
  end.

(** [df[label] = values]: the values must be as long as the index; an
    existing column is replaced where it stands, a new label is added
    at the end. *)
Definition setitem (label : string) (s : Series) : M DataFrame unit :=
  fun df =>
    if Nat.eqb (len s) (nrows df)
    then (mk_frame (nrows df) (replace_column label s (columns df)), Ok tt)
    else (df, Raise (mk_exn ValueError
                        "Length of values does not match length of index")).

End Pandas.

Import Pandas.

(** ** [src/categorical_encoder.py] *)

Local Open Scope py_scope.

(** The body of the [for] loop, over the labels still to visit. *)
Fixpoint encode_loop (labels : list string) : M DataFrame unit :=
  match labels with
  | [] => ret tt
  | column :: rest =>
      df <- get ;;
      s <- lift (getitem df column) ;;
      setitem column (Categorical_codes s) ;;
      encode_loop rest
  end.

(** [encode_categorical(df)]: the frame is mutated and returned; the
    store that comes out is that frame. *)
Definition encode_categorical : M DataFrame unit :=
  fun df => encode_loop (select_object_columns df) df.

(** The frame the loop leaves behind when nothing raises: every object
    column replaced by its codes, the others as they were. *)
Definition encode_column (c : string * Series) : string * Series :=
  if is_object (snd c) then (fst c, Categorical_codes (snd c)) else c.

Definition encoded (df : DataFrame) : DataFrame :=
  mk_frame (nrows df) (map encode_column (columns df)).

(** What a caller can pass at run time: the parameter [df] is not
    typed.  The first thing the body does with it is the attribute
    lookup [df.select_dtypes], which only a frame answers. *)
Inductive py_value :=
| PyNone
| PyInt (z : Z)
| PyStr (s : string)
| PyList (rows : list (list Z))
| PySeries (s : Series)
| PyDataFrame (df : DataFrame).

Definition type_name (v : py_value) : string :=
  match v with
  | PyNone => "NoneType"
  | PyInt _ => "int"
  | PyStr _ => "str"
  | PyList _ => "list"
  | PySeries _ => "Series"
  | PyDataFrame _ => "DataFrame"
  end.

(** The call [encode_categorical(arg)]: the argument as the call leaves
    it, and what the call returns or raises. *)
Definition encode_categorical_call (arg : py_value)
  : py_value * result py_value :=
  match arg with
  | PyDataFrame df =>
      match encode_categorical df with
      | (df', Ok _) => (PyDataFrame df', Ok (PyDataFrame df'))
      | (df', Raise e) => (PyDataFrame df', Raise e)
      end
  | other =>
      (other, Raise (mk_exn AttributeError
                       ("'" ++ type_name other
                            ++ "' object has no attribute 'select_dtypes'")))
  end.

(** Frames as pandas builds them from a dict or reads them from a CSV
    file, which is where both frames of the app come from: the labels
    are unique and every column is as long as the index.  pandas also
    admits repeated labels, under which [df[label]] is a frame and not
    a column; the statements leave such frames out. *)
Definition well_formed (df : DataFrame) : Prop :=
  NoDup (map fst (columns df)) /\
  Forall (fun c => len (snd c) = nrows df) (columns df).

Fixpoint unique_labels (labels : list string) : bool :=
  match labels with
  | [] => true
  | l :: rest => negb (existsb (String.eqb l) rest) && unique_labels rest
  end.

Definition well_formedb (df : DataFrame) : bool :=
  unique_labels (map fst (columns df))
  && forallb (fun c => Nat.eqb (len (snd c)) (nrows df)) (columns df).

(** ** [app-prod.py] *)

(** *** The sidebar *)

(** What the ten widgets of the sidebar return. *)
Record sidebar := mk_sidebar {
  online_boarding : Z;
  inflight_wifi_service : Z;
  inflight_entertainment : Z;
  checkin_service : Z;
  seat_comfort : Z;
  age : Z;
  flight_distance : Z;
  business_travel : string;
  loyal_customer : string;
  travel_class : string
}.

(** The widgets untouched: each slider and number input at its third
    argument, each select box at its first option. *)
Definition default_sidebar : sidebar :=
  mk_sidebar 3 3 3 3 3 18 100 "Yes" "Yes" "Eco".

(** [user_input_features()]: [pd.DataFrame(inputs, index=[0])], one
    row, the columns in the order of the dict. *)
Definition user_input_features (w : sidebar) : DataFrame :=
  mk_frame 1
    [ ("Online boarding", IntSeries int64 [online_boarding w]);
      ("Inflight wifi service", IntSeries int64 [inflight_wifi_service w]);
      ("Inflight entertainment", IntSeries int64 [inflight_entertainment w]);
      ("Checkin service", IntSeries int64 [checkin_service w]);
      ("Seat comfort", IntSeries int64 [seat_comfort w]);
      ("Age", IntSeries int64 [age w]);
      ("Flight Distance", IntSeries int64 [flight_distance w]);
      ("Business Travel", ObjectSeries [Some (business_travel w)]);
      ("Loyal Customer", ObjectSeries [Some (loyal_customer w)]);
      ("Class", ObjectSeries [Some (travel_class w)]) ].

(** *** The page *)

(** What Streamlit has been asked to render. *)
Inductive element :=
| st_error_box (body : string)
| st_markdown (body : string)
| st_html (html : string).

(** The mutable state of one script run: the frame [input_df] refers
    to and the elements rendered so far. *)
Record Session := mk_session {
  input_df : DataFrame;
  page : list element
}.

Definition render (e : element) : M Session unit :=
  fun s => (mk_session (input_df s) (page s ++ [e]), Ok tt).

Definition st_error (body : string) : M Session unit := render (st_error_box body).
Definition st_write (body : string) : M Session unit := render (st_markdown body).
Definition st_components_html (html : string) : M Session unit := render (st_html html).

(** A computation on the frame [input_df] refers to. *)
Definition on_input_df {A} (m : M DataFrame A) : M Session A :=
  fun s =>
    match m (input_df s) with
    | (df', r) => (mk_session df' (page s), r)
    end.

(** Truth value of an element of the prediction array. *)
Definition truthy (z : Z) : bool := negb (z =? 0).

Section App.

(** Values of the libraries the app only passes around: a row of the
    transformed matrix, an array of SHAP values, the explainer's
    expected value, class probabilities, a LIME explanation. *)
Variables Row ShapArray Expected Proba Explanation : Type.

(** [config.LIME_NUM_FEATURES] *)
Variable LIME_NUM_FEATURES : Z.

(** The fitted pipeline. *)
Record Preprocessor := {
  transform : DataFrame -> result (list Row)
}.

(** A trained classifier. *)
Record Model := {
  predict : list Row -> result (list Z);
  predict_proba : list Row -> result Proba
}.

(** [explainer.shap_values(X)] is a list of arrays, one per class, or
    one array. *)
Inductive shap_output :=
| ShapList (per_class : list ShapArray)
| ShapNdarray (a : ShapArray).

Record Explainer := {
  shap_values : list Row -> result shap_output;
  expected_value : Expected
}.

Record LimeExplainer := {
  explain_instance :
    Row -> (list Row -> result Proba) -> Z -> result Explanation
}.

(** [lime_explanation.as_html()] *)
Variable as_html : Explanation -> result string.

(** The five values [make_prediction] returns; each may be [None]. *)
Definition prediction_tuple : Type :=
  (option string * option ShapArray * option Expected
   * option (list Row) * option Explanation)%type.

Definition no_result : prediction_tuple := (None, None, None, None, None).

(** Lines 52 and 53: encode the record, transform it, predict. *)
Definition transform_and_predict (model : Model) (preprocessor : Preprocessor)
  : M Session (list Row * list Z) :=
  on_input_df encode_categorical ;;
  s <- get ;;
  input_df_transformed <- lift (transform preprocessor (input_df s)) ;;
  prediction <- lift (predict model input_df_transformed) ;;
  ret (input_df_transformed, prediction).

(** Lines 59 and 60: of a list the second entry, the array of the
    positive class. *)
Definition second_class (shap_values : shap_output) : result ShapArray :=
  match shap_values with
  | ShapList per_class => subscript per_class 1
  | ShapNdarray a => Ok a
  end.

(** The body of the [try]. *)
Definition try_body (model : Model) (preprocessor : Preprocessor)
           (explainer : Explainer) (lime_explainer : LimeExplainer)
  : M Session prediction_tuple :=
  tp <- transform_and_predict model preprocessor ;;
  let input_df_transformed := fst tp in
  let prediction := snd tp in
  shap_values <- lift (shap_values explainer input_df_transformed) ;;
  shap_values <- lift (second_class shap_values) ;;
  data_row <- lift (ndarray_subscript input_df_transformed 0) ;;
  lime_explanation <- lift (explain_instance lime_explainer data_row
                              (predict_proba model) LIME_NUM_FEATURES) ;;
  p0 <- lift (ndarray_subscript prediction 0) ;;
  ret (Some (if truthy p0 then "Satisfied 😊" else "Not Satisfied 😞"),
       Some shap_values, Some (expected_value explainer),
       Some input_df_transformed, Some lime_explanation).

Definition error_message (e : exn) : string :=
  "Error occurred during prediction: " ++ exn_str e
    ++ ". Please contact support.".

(** [make_prediction(model, preprocessor, input_df, explainer,
    lime_explainer)]; [input_df] is the frame of the session. *)
Definition make_prediction (model : Model) (preprocessor : Preprocessor)
           (explainer : Explainer) (lime_explainer : LimeExplainer)
  : M Session prediction_tuple :=
  try_except
    (try_body model preprocessor explainer lime_explainer)
    (fun e => st_error (error_message e) ;; ret no_result).

(** The handler of the predict button (lines 115 to 129); an empty
    string and [None] are both false in [if result:]. *)
Definition on_predict_button (model : Model) (preprocessor : Preprocessor)
           (explainer : Explainer) (lime_explainer : LimeExplainer)
  : M Session unit :=
  r <- make_prediction model preprocessor explainer lime_explainer ;;
  let '(result, _, _, _, lime_explanation) := r in
  match result with
  | None | Some "" => ret tt
  | Some label =>
      st_write ("### Prediction: " ++ label) ;;
      st_write "### LIME Explanation:" ;;
      lime_html <- lift (match lime_explanation with
                         | Some ex => as_html ex
                         | None => Raise (mk_exn AttributeError
                             "'NoneType' object has no attribute 'as_html'")
                         end) ;;
      st_components_html lime_html
  end.

(** The places of the [try] body where the exception [e] can come
    from, each reached after the ones before it went through. *)
Inductive raises_in_path (model : Model) (preprocessor : Preprocessor)
          (explainer : Explainer) (lime_explainer : LimeExplainer)
          (s : Session) (e : exn) : Prop :=
| raises_in_encode df' :
    encode_categorical (input_df s) = (df', Raise e) ->
    raises_in_path model preprocessor explainer lime_explainer s e
| raises_in_transform df' :
    encode_categorical (input_df s) = (df', Ok tt) ->
    transform preprocessor df' = Raise e ->
    raises_in_path model preprocessor explainer lime_explainer s e
| raises_in_predict df' X :
    encode_categorical (input_df s) = (df', Ok tt) ->
    transform preprocessor df' = Ok X ->
    predict model X = Raise e ->
    raises_in_path model preprocessor explainer lime_explainer s e
| raises_in_shap df' X p :
    encode_categorical (input_df s) = (df', Ok tt) ->
    transform preprocessor df' = Ok X ->
    predict model X = Ok p ->
    shap_values explainer X = Raise e ->
    raises_in_path model preprocessor explainer lime_explainer s e
| raises_in_second_class df' X p sv :
    encode_categorical (input_df s) = (df', Ok tt) ->
    transform preprocessor df' = Ok X ->
    predict model X = Ok p ->
    shap_values explainer X = Ok sv ->
    second_class sv = Raise e ->
    raises_in_path model preprocessor explainer lime_explainer s e
| raises_in_data_row df' X p sv a :
    encode_categorical (input_df s) = (df', Ok tt) ->
    transform preprocessor df' = Ok X ->
    predict model X = Ok p ->
    shap_values explainer X = Ok sv ->
    second_class sv = Ok a ->
    ndarray_subscript X 0 = Raise e ->
    raises_in_path model preprocessor explainer lime_explainer s e
| raises_in_lime df' X p sv a row :
    encode_categorical (input_df s) = (df', Ok tt) ->
    transform preprocessor df' = Ok X ->
    predict model X = Ok p ->
    shap_values explainer X = Ok sv ->
    second_class sv = Ok a ->
    ndarray_subscript X 0 = Ok row ->
    explain_instance lime_explainer row (predict_proba model)
                     LIME_NUM_FEATURES = Raise e ->
    raises_in_path model preprocessor explainer lime_explainer s e
| raises_in_label df' X p sv a row ex :
    encode_categorical (input_df s) = (df', Ok tt) ->
    transform preprocessor df' = Ok X ->
    predict model X = Ok p ->
    shap_values explainer X = Ok sv ->
    second_class sv = Ok a ->
    ndarray_subscript X 0 = Ok row ->
    explain_instance lime_explainer row (predict_proba model)
                     LIME_NUM_FEATURES = Ok ex ->
    ndarray_subscript p 0 = Raise e ->
    raises_in_path model preprocessor explainer lime_explainer s e.

(** The session after a failed request: the record as the encoder
    left it, and one error box more on the page. *)
Definition failed_session (s : Session) (e : exn) : Session :=
  mk_session (fst (encode_categorical (input_df s)))
             (page s ++ [st_error_box (error_message e)]).

End App.

Arguments transform {Row} _ _.
Arguments predict {Row Proba} _ _.
Arguments predict_proba {Row Proba} _ _.
Arguments ShapList {ShapArray} _.
Arguments ShapNdarray {ShapArray} _.
Arguments shap_values {Row ShapArray Expected} _ _.
Arguments expected_value {Row ShapArray Expected} _.
Arguments explain_instance {Row Proba Explanation} _ _ _ _.
Arguments second_class {ShapArray} _.
Arguments no_result {Row ShapArray Expected Explanation}.
Arguments transform_and_predict {Row Proba} _ _ _.
Arguments try_body {Row ShapArray Expected Proba Explanation} _ _ _ _ _ _.
Arguments make_prediction {Row ShapArray Expected Proba Explanation} _ _ _ _ _ _.
Arguments on_predict_button {Row ShapArray Expected Proba Explanation} _ _ _ _ _ _ _.
Arguments raises_in_path {Row ShapArray Expected Proba Explanation} _ _ _ _ _ _ _.

(** *** Stand-ins for the libraries

    The artefacts the app loads are not part of the sources; these
    constant ones run the request on concrete values. *)

Definition constant_preprocessor : Preprocessor Z :=
  {| transform := fun _ => Ok [0] |}.

Definition failing_preprocessor : Preprocessor Z :=
  {| transform := fun _ =>
       Raise (mk_exn ValueError "columns are missing: {'Gender'}") |}.

Definition constant_model (class : Z) : Model Z Z :=
  {| predict := fun _ => Ok [class];
     predict_proba := fun _ => Ok 0 |}.

Definition constant_explainer : Explainer Z Z Z :=
  {| shap_values := fun _ => Ok (ShapList [0; 0]);
     expected_value := 0 |}.

Definition constant_lime_explainer : LimeExplainer Z Z string :=
  {| explain_instance := fun _ _ _ => Ok "<div>lime</div>" |}.

Definition constant_as_html (ex : string) : result string := Ok ex.

(** The session of a user who presses the button with the sidebar
    untouched and nothing rendered yet. *)
Definition default_session : Session :=
  mk_session (user_input_features default_sidebar) [].

Definition constant_request (class : Z) (preprocessor : Preprocessor Z)
  : Session * result (prediction_tuple Z Z Z string) :=
  make_prediction 5 (constant_model class) preprocessor
                  constant_explainer constant_lime_explainer default_session.

(** ** Vocabulary of the statements *)

(** The strings of an object column, row by row, missing entries left
    out. *)
Fixpoint present (values : list (option string)) : list string :=
  match values with
  | [] => []
  | Some s :: rest => s :: present rest
  | None :: rest => present rest
  end.


Definition distinct_strings (values : list (option string)) : list string :=
  nodup string_dec (present values).


(** Row [i] of the column held the string [s] and holds the code [c]
    after encoding. *)
Definition encodes_as (values : list (option string)) (cs : list Z)
           (s : string) (c : Z) : Prop :=
  exists i, nth_error values i = Some (Some s) /\ nth_error cs i = Some c.

(** [x] sorts strictly before [y]. *)
Definition precedes {A} (cmp : A -> A -> comparison) (x y : A) : Prop :=
  cmp x y = Lt.

(** One pass of the loop body over every label of [labels]. *)
Definition encode_labelled (labels : list string) (c : string * Series)
  : string * Series :=
  if existsb (String.eqb (fst c)) labels
  then (fst c, Categorical_codes (snd c))
  else c.



Definition column_at (df : DataFrame) (i : nat) : option (string * Series) :=
  nth_error (columns df) i.

(** One call of the encoder on [df] raises nothing and leaves the frame
    [df'], whose column [i] is the integer column [cs] under [label]. *)
Definition replaced_by_codes (df : DataFrame) (i : nat) (label : string)
           (df' : DataFrame) (cs : list Z) : Prop :=
  encode_categorical df = (df', Ok tt) /\
  exists dtype, column_at df' i = Some (label, IntSeries dtype cs).

(** ** Sample frames *)

(** Three rows of a reference table: an integer column, the column of
    the example in the specification, and a column with a missing
    entry. *)
Definition eco_business_eco : list (option string) :=
  [Some "Eco"; Some "Business"; Some "Eco"].

Definition yes_missing_no : list (option string) :=
  [Some "Yes"; None; Some "No"].

Definition sample_frame : DataFrame :=
  mk_frame 3
    [ ("Age", IntSeries int64 [18; 41; 30]);
      ("Class", ObjectSeries eco_business_eco);
      ("Loyal Customer", ObjectSeries yes_missing_no) ].



(** A frame whose columns are all integer already. *)
Definition integer_frame : DataFrame :=
  mk_frame 2
    [ ("Age", IntSeries int64 [18; 41]);
      ("Class", IntSeries int8 [1; 0]) ].

(** Three rows in the format of the record of the sidebar, as a
    reference table holds them. *)
Definition reference_rows : DataFrame :=
  mk_frame 3
    [ ("Online boarding", IntSeries int64 [3; 5; 1]);
      ("Inflight wifi service", IntSeries int64 [3; 4; 2]);
      ("Inflight entertainment", IntSeries int64 [3; 5; 1]);
      ("Checkin service", IntSeries int64 [3; 4; 2]);
      ("Seat comfort", IntSeries int64 [3; 5; 1]);
      ("Age", IntSeries int64 [18; 52; 33]);
      ("Flight Distance", IntSeries int64 [100; 2300; 480]);
      ("Business Travel", ObjectSeries [Some "Yes"; Some "Yes"; Some "No"]);
      ("Loyal Customer", ObjectSeries [Some "Yes"; Some "No"; Some "Yes"]);
      ("Class", ObjectSeries [Some "Eco"; Some "Eco Plus"; Some "Business"]) ].

(** Two rows of another slice of the same table. *)
Definition sample_slice : DataFrame :=
  mk_frame 2 [ ("Class", ObjectSeries [Some "Business"; Some "Eco"]) ].

(** ** Vocabulary of the further properties *)

Definition sorts_before (t s : string) : bool :=
  match str_compare t s with
  | Lt => true
  | _ => false
  end.

(** How many of the distinct strings of the column sort before [s]. *)
Definition rank (values : list (option string)) (s : string) : Z :=
  Z.of_nat (length (filter (fun t => sorts_before t s)
                           (distinct_strings values))).

(** The column with every string renamed by [f], missing entries left
    missing. *)
Definition rename (f : string -> string) (values : list (option string))
  : list (option string) :=
  map (option_map f) values.

(** A renaming that keeps the order: one more character in front. *)
Definition prefixed (s : string) : string := String "x" s.

Definition renamed_slice : DataFrame :=
  mk_frame 3 [ ("Travel class", ObjectSeries (rename prefixed eco_business_eco)) ].

(** What the encoder makes of the record of the sidebar: the seven
    numbers as entered, and 0 for each of the three select boxes. *)
Definition encoded_record (w : sidebar) : DataFrame :=
  mk_frame 1
    [ ("Online boarding", IntSeries int64 [online_boarding w]);
      ("Inflight wifi service", IntSeries int64 [inflight_wifi_service w]);
      ("Inflight entertainment", IntSeries int64 [inflight_entertainment w]);
      ("Checkin service", IntSeries int64 [checkin_service w]);
      ("Seat comfort", IntSeries int64 [seat_comfort w]);
      ("Age", IntSeries int64 [age w]);
      ("Flight Distance", IntSeries int64 [flight_distance w]);
      ("Business Travel", IntSeries int8 [0]);
      ("Loyal Customer", IntSeries int8 [0]);
      ("Class", IntSeries int8 [0]) ].

(** Two states of the sidebar with the same sliders and number inputs;
    the select boxes may differ. *)
Definition same_numbers (w w' : sidebar) : Prop :=
  online_boarding w = online_boarding w' /\
  inflight_wifi_service w = inflight_wifi_service w' /\
  inflight_entertainment w = inflight_entertainment w' /\
  checkin_service w = checkin_service w' /\
  seat_comfort w = seat_comfort w' /\
  age w = age w' /\
  flight_distance w = flight_distance w'.

(** The sidebar untouched but for the select boxes, each at its last
    option. *)
Definition other_choices_sidebar : sidebar :=
  mk_sidebar 3 3 3 3 3 18 100 "No" "No" "Business".

(** An explainer that answers with the array of one class only. *)
Definition one_class_explainer : Explainer Z Z Z :=
  {| shap_values := fun _ => Ok (ShapList [0]);
     expected_value := 0 |}.

Definition failing_as_html (ex : string) : result string :=
  Raise (mk_exn (OtherException "RuntimeError") "no html").

(** A pipeline that answers with a matrix of no rows, and a model that
    answers with no prediction. *)
Definition empty_preprocessor : Preprocessor Z :=
  {| transform := fun _ => Ok [] |}.

Definition silent_model : Model Z Z :=
  {| predict := fun _ => Ok [];
     predict_proba := fun _ => Ok 0 |}.

(** * Facts *)

(** ** Sorted categories and their positions *)

Section CategoricalFacts.

Context {A : Type} (cmp : A -> A -> comparison).

Hypothesis cmp_eq : forall x y, cmp x y = Eq <-> x = y.
Hypothesis cmp_antisym : forall x y, cmp y x = CompOpp (cmp x y).
Hypothesis cmp_trans :
  forall x y z, cmp x y = Lt -> cmp y z = Lt -> cmp x z = Lt.

Local Abbreviation lt := (precedes cmp).

Lemma lt_irrefl x : ~ lt x x.
Proof.
  unfold precedes. intros H. assert (cmp x x = Eq) by now apply cmp_eq.
  congruence.
Qed.

Lemma lt_asym x y : lt x y -> ~ lt y x.
Proof.
  unfold precedes. intros H H'. rewrite (cmp_antisym x y), H in H'.
  discriminate.
Qed.

Lemma In_insert a x l : In x (insert cmp a l) <-> x = a \/ In x l.
Proof.
  induction l as [|b l IH]; simpl.
  - intuition.
  - destruct (cmp a b) eqn:E; simpl.
    + apply cmp_eq in E. subst b. intuition.
    + intuition.
    + rewrite IH. intuition.
Qed.

Lemma insert_sorted a l :
  StronglySorted lt l -> StronglySorted lt (insert cmp a l).
Proof.
  induction 1 as [|b l Hs IH Hb]; simpl.
  - repeat constructor.
  - destruct (cmp a b) eqn:E.
    + now constructor.
    + constructor; [now constructor|].
      constructor; [exact E|].
      eapply Forall_impl; [|exact Hb].
      intros x Hx. now apply (cmp_trans a b x).
    + constructor; [exact IH|].
      apply Forall_forall. intros x Hx. apply In_insert in Hx.
      destruct Hx as [->|Hx].
      * unfold precedes. now rewrite (cmp_antisym a b), E.
      * rewrite Forall_forall in Hb. now apply Hb.
Qed.

Lemma In_categories a values :
  In a (categories cmp values) <-> In (Some a) values.
Proof.
  induction values as [|[b|] values IH]; simpl.
  - tauto.
  - rewrite In_insert, IH. split.
    + intros [->|H]; auto.
    + intros [H|H]; [left; congruence | auto].
  - rewrite IH. split; [auto | intros [H|H]; [discriminate | auto]].
Qed.

Lemma categories_sorted values : StronglySorted lt (categories cmp values).
Proof.
  induction values as [|[b|] values IH]; simpl.
  - constructor.
  - now apply insert_sorted.
  - exact IH.
Qed.

Lemma sorted_NoDup l : StronglySorted lt l -> NoDup l.
Proof.
  induction 1 as [|b l Hs IH Hb]; constructor; [|exact IH].
  intros Hin. rewrite Forall_forall in Hb. exact (lt_irrefl b (Hb b Hin)).
Qed.


Lemma sorted_ext l1 l2 :
  StronglySorted lt l1 -> StronglySorted lt l2 ->
  (forall x, In x l1 <-> In x l2) -> l1 = l2.
Proof.
  intros H1. revert l2.
  induction H1 as [|a l1 Hs1 IH Ha]; intros l2 H2 Hin.
  - destruct l2 as [|b l2]; [reflexivity|].
    exfalso. apply (Hin b). now left.
  - destruct H2 as [|b l2 Hs2 Hb].
    + exfalso. apply (Hin a). now left.
    + rewrite Forall_forall in Ha, Hb.
      assert (a = b) as <-.
      { destruct (proj1 (Hin a) (or_introl eq_refl)) as [E|Hab]; [auto|].
        destruct (proj2 (Hin b) (or_introl eq_refl)) as [E|Hba]; [auto|].
        exfalso. exact (lt_asym _ _ (Ha _ Hba) (Hb _ Hab)). }
      f_equal. apply IH; [exact Hs2|].
      intros x. split; intros Hx.
      * destruct (proj1 (Hin x) (or_intror Hx)) as [E|Hx']; [|exact Hx'].
        subst x. exfalso. exact (lt_irrefl a (Ha a Hx)).
      * destruct (proj2 (Hin x) (or_intror Hx)) as [E|Hx']; [|exact Hx'].
        subst x. exfalso. exact (lt_irrefl a (Hb a Hx)).
Qed.

(** The categories of a column depend on the set of its values only. *)
Lemma categories_ext values1 values2 :
  (forall a, In (Some a) values1 <-> In (Some a) values2) ->
  categories cmp values1 = categories cmp values2.
Proof.
  intros H. apply sorted_ext; try apply categories_sorted.
  intros x. now rewrite !In_categories.
Qed.

Lemma get_indexer_bounds cats a :
  -1 <= get_indexer cmp cats a < Z.of_nat (length cats).
Proof.
  induction cats as [|c cats IH]; simpl length; simpl get_indexer.
  - lia.
  - destruct (cmp a c); [lia| |];
      destruct (get_indexer cmp cats a <? 0) eqn:E;
      try apply Z.ltb_ge in E; lia.
Qed.

Lemma get_indexer_In cats a :
  In a cats ->
  0 <= get_indexer cmp cats a /\
  nth_error cats (Z.to_nat (get_indexer cmp cats a)) = Some a.
Proof.
  induction cats as [|c cats IH]; simpl; [tauto|].
  intros Hin. destruct (cmp a c) eqn:E.
  - apply cmp_eq in E. subst c. simpl. auto with zarith.
  - destruct Hin as [->|Hin]; [exfalso; exact (lt_irrefl a E)|].
    destruct (IH Hin) as [H0 Hn].
    destruct (Z.ltb_spec (get_indexer cmp cats a) 0); [lia|].
    split; [lia|]. rewrite Z2Nat.inj_add by lia. rewrite Nat.add_1_r.
    exact Hn.
  - destruct Hin as [->|Hin].
    { assert (cmp a a = Eq) by now apply cmp_eq. congruence. }
    destruct (IH Hin) as [H0 Hn].
    destruct (Z.ltb_spec (get_indexer cmp cats a) 0); [lia|].
    split; [lia|]. rewrite Z2Nat.inj_add by lia. rewrite Nat.add_1_r.
    exact Hn.
Qed.

Lemma get_indexer_not_In cats a :
  ~ In a cats -> get_indexer cmp cats a = -1.
Proof.
  induction cats as [|c cats IH]; simpl; [reflexivity|].
  intros Hn. destruct (cmp a c) eqn:E.
  - apply cmp_eq in E. subst c. tauto.
  - rewrite IH by tauto. reflexivity.
  - rewrite IH by tauto. reflexivity.
Qed.




End CategoricalFacts.

(** ** The order of strings *)

Lemma str_lt_irrefl x : ~ String_as_OT.lt x x.
Proof. destruct String_as_OT.lt_strorder as [Irr _]. exact (Irr x). Qed.

Lemma str_lt_trans x y z :
  String_as_OT.lt x y -> String_as_OT.lt y z -> String_as_OT.lt x z.
Proof. destruct String_as_OT.lt_strorder as [_ Tr]. exact (Tr x y z). Qed.

Lemma str_compare_eq x y : str_compare x y = Eq <-> x = y.
Proof.
  unfold str_compare. split.
  - intros H. destruct (String_as_OT.compare_spec x y) as [E|E|E];
      [exact E | discriminate | discriminate].
  - intros <-. destruct (String_as_OT.compare_spec x x) as [_|H|H];
      [reflexivity| |]; exfalso; exact (str_lt_irrefl x H).
Qed.

Lemma str_compare_antisym x y : str_compare y x = CompOpp (str_compare x y).
Proof.
  unfold str_compare.
  destruct (String_as_OT.compare_spec x y) as [E|H|H];
    destruct (String_as_OT.compare_spec y x) as [E'|H'|H'];
    unfold String_as_OT.eq in *; subst; try reflexivity; exfalso;
    solve [ eapply str_lt_irrefl; eassumption
          | eapply str_lt_irrefl; eapply str_lt_trans; eassumption ].
Qed.

Lemma str_compare_trans x y z :
  str_compare x y = Lt -> str_compare y z = Lt -> str_compare x z = Lt.
Proof. exact (str_lt_trans x y z). Qed.

(** ** The loop of the encoder *)

Lemma len_Categorical_codes s : len (Categorical_codes s) = len s.
Proof.
  destruct s; simpl; unfold codes; now rewrite ?length_map.
Qed.

Lemma is_object_Categorical_codes s : is_object (Categorical_codes s) = false.
Proof. now destruct s. Qed.

Lemma find_label label (cols : list (string * Series)) :
  In label (map fst cols) ->
  exists c, find (fun c => String.eqb (fst c) label) cols = Some c
            /\ fst c = label /\ In c cols.
Proof.
  induction cols as [|c0 cols IH]; simpl; [tauto|].
  intros H. destruct (String.eqb_spec (fst c0) label) as [E|N].
  - exists c0. auto.
  - destruct H as [H|H]; [contradiction|].
    destruct (IH H) as (c & Hf & Hl & Hin). exists c. auto.
Qed.

Lemma same_label_same_column (cols : list (string * Series)) c c' :
  NoDup (map fst cols) -> In c cols -> In c' cols -> fst c = fst c' -> c = c'.
Proof.
  induction cols as [|c0 cols IH]; simpl; [tauto|].
  intros Hnd Hc Hc' E. inversion Hnd as [|? ? Hn Hnd']; subst.
  destruct Hc as [->|Hc], Hc' as [->|Hc']; auto.
  - exfalso. apply Hn. rewrite E. now apply in_map.
  - exfalso. apply Hn. rewrite <- E. now apply in_map.
Qed.

Lemma fst_encode_labelled labels c : fst (encode_labelled labels c) = fst c.
Proof. unfold encode_labelled. now destruct (existsb _ labels). Qed.

Lemma len_encode_labelled labels c :
  len (snd (encode_labelled labels c)) = len (snd c).
Proof.
  unfold encode_labelled. destruct (existsb _ labels); simpl; auto.
  apply len_Categorical_codes.
Qed.

Lemma replace_column_map label cols c :
  NoDup (map fst cols) ->
  find (fun c => String.eqb (fst c) label) cols = Some c ->
  replace_column label (Categorical_codes (snd c)) cols
  = map (encode_labelled [label]) cols.
Proof.
  induction cols as [|c0 cols IH]; simpl; [discriminate|].
  intros Hnd Hf. inversion Hnd as [|? ? Hn Hnd']; subst.
  unfold encode_labelled at 1. simpl existsb.
  destruct (String.eqb_spec (fst c0) label) as [E|N]; simpl.
  - injection Hf as <-. rewrite E. f_equal.
    rewrite <- (map_id cols) at 1. apply map_ext_in.
    intros c Hc. unfold encode_labelled. simpl.
    destruct (String.eqb_spec (fst c) label) as [E'|_]; [|reflexivity].
    exfalso. apply Hn. rewrite E, <- E'. now apply in_map.
  - f_equal. now apply IH.
Qed.

Lemma existsb_label l labels :
  existsb (String.eqb l) labels = true <-> In l labels.
Proof.
  rewrite existsb_exists. split.
  - intros (x & Hx & E). apply String.eqb_eq in E. now subst.
  - intros H. exists l. split; [exact H | apply String.eqb_refl].
Qed.

Lemma encode_loop_spec labels :
  forall n cols,
    NoDup labels -> incl labels (map fst cols) ->
    NoDup (map fst cols) ->
    Forall (fun c => len (snd c) = n) cols ->
    encode_loop labels (mk_frame n cols)
    = (mk_frame n (map (encode_labelled labels) cols), Ok tt).
Proof.
  induction labels as [|a rest IH]; intros n cols Hl Hincl Hnd Hlen.
  - simpl. unfold ret. f_equal. f_equal.
    rewrite <- (map_id cols) at 1. now apply map_ext.
  - inversion Hl as [|? ? Ha Hrest]; subst.
    destruct (find_label a cols) as (c & Hf & Hc & Hin);
      [apply Hincl; now left|].
    cbn [encode_loop]. unfold bind at 1. unfold get.
    unfold bind at 1. unfold lift, getitem. cbn [columns]. rewrite Hf.
    unfold bind at 1. unfold setitem. cbn [nrows columns].
    rewrite len_Categorical_codes.
    rewrite Forall_forall in Hlen. rewrite (Hlen c Hin), Nat.eqb_refl.
    rewrite (replace_column_map a cols c Hnd Hf).
    rewrite IH.
    + f_equal. f_equal. rewrite map_map. apply map_ext.
      intros c'. unfold encode_labelled at 2 3. cbn [existsb].
      destruct (String.eqb_spec (fst c') a) as [E|N]; cbn [orb].
      * unfold encode_labelled. cbn [fst snd].
        destruct (existsb (String.eqb (fst c')) rest) eqn:Ex; [|reflexivity].
        exfalso. apply Ha. rewrite <- E. now apply existsb_label.
      * reflexivity.
    + exact Hrest.
    + rewrite map_map. rewrite (map_ext _ fst (fst_encode_labelled [a])).
      intros l Hl'. apply Hincl. now right.
    + rewrite map_map. now rewrite (map_ext _ fst (fst_encode_labelled [a])).
    + apply Forall_forall. intros c' Hc'. apply in_map_iff in Hc'.
      destruct Hc' as (c0 & <- & Hc0). rewrite len_encode_labelled. auto.
Qed.

Lemma NoDup_select_object_columns df :
  NoDup (map fst (columns df)) -> NoDup (select_object_columns df).
Proof.
  unfold select_object_columns. induction (columns df) as [|c cols IH]; simpl.
  - constructor.
  - intros Hnd. inversion Hnd as [|? ? Hn Hnd']; subst.
    destruct (is_object (snd c)); simpl; auto.
    constructor; auto. intros Hin. apply Hn.
    apply in_map_iff in Hin. destruct Hin as (c' & E & Hc').
    apply filter_In in Hc'. rewrite <- E. apply in_map. tauto.
Qed.

(** On a well-formed frame the loop raises nothing and leaves [encoded]. *)
Lemma encode_categorical_spec df :
  well_formed df -> encode_categorical df = (encoded df, Ok tt).
Proof.
  intros [Hnd Hlen]. destruct df as [n cols]. cbn [nrows columns] in *.
  unfold encode_categorical, encoded. cbn [nrows columns].
  rewrite encode_loop_spec; auto.
  - f_equal. f_equal. apply map_ext_in. intros c Hc.
    unfold encode_labelled, encode_column, select_object_columns.
    cbn [columns].
    destruct (existsb _ _) eqn:Ex.
    + apply existsb_label in Ex. apply in_map_iff in Ex.
      destruct Ex as (c' & E & Hc'). apply filter_In in Hc'.
      destruct Hc' as [Hc' Ho].
      rewrite (same_label_same_column cols c c' Hnd Hc Hc' (eq_sym E)).
      now rewrite Ho.
    + destruct (is_object (snd c)) eqn:Ho; [|reflexivity].
      assert (existsb (String.eqb (fst c))
                (map fst (filter (fun c => is_object (snd c)) cols)) = true).
      { apply existsb_label. apply in_map. apply filter_In. auto. }
      congruence.
  - now apply (NoDup_select_object_columns (mk_frame n cols)).
  - unfold select_object_columns. cbn [columns]. intros l Hl.
    apply in_map_iff in Hl. destruct Hl as (c & <- & Hc).
    apply filter_In in Hc. apply in_map. tauto.
Qed.

Lemma unique_labels_NoDup labels : unique_labels labels = true -> NoDup labels.
Proof.
  induction labels as [|l rest IH]; simpl; [constructor|].
  intros H. apply andb_true_iff in H. destruct H as [Hn Hr].
  constructor; auto. intros Hin. apply existsb_label in Hin.
  rewrite Hin in Hn. discriminate.
Qed.

Lemma well_formedb_sound df : well_formedb df = true -> well_formed df.
Proof.
  unfold well_formedb, well_formed. intros H.
  apply andb_true_iff in H. destruct H as [Hu Hf]. split.
  - now apply unique_labels_NoDup.
  - apply Forall_forall. intros c Hc. rewrite forallb_forall in Hf.
    apply Nat.eqb_eq. auto.
Qed.

Lemma well_formed_encoded df : well_formed df -> well_formed (encoded df).
Proof.
  intros [Hnd Hlen]. split; unfold encoded; cbn [nrows columns].
  - rewrite map_map. rewrite (map_ext _ fst); [exact Hnd|].
    intros c. unfold encode_column. now destruct (is_object (snd c)).
  - apply Forall_forall. intros c Hc. apply in_map_iff in Hc.
    destruct Hc as (c0 & <- & Hc0). rewrite Forall_forall in Hlen.
    unfold encode_column. destruct (is_object (snd c0)); cbn [snd]; auto.
    rewrite len_Categorical_codes. auto.
Qed.

(** ** Codes of an object column *)

Lemma present_In s values : In s (present values) <-> In (Some s) values.
Proof.
  induction values as [|[t|] values IH]; simpl.
  - tauto.
  - rewrite IH. split; intros [H|H]; auto; left; congruence.
  - rewrite IH. split; [auto | intros [H|H]; [discriminate | auto]].
Qed.


Lemma codes_nth {A} (cmp : A -> A -> comparison) values i v :
  nth_error values i = Some v ->
  nth_error (codes cmp values) i = Some (code_of cmp (categories cmp values) v).
Proof. intros H. unfold codes. rewrite nth_error_map, H. reflexivity. Qed.


Lemma str_In_categories s values :
  In s (categories str_compare values) <-> In (Some s) values.
Proof. apply In_categories. exact str_compare_eq. Qed.

Lemma str_categories_sorted values :
  StronglySorted (precedes str_compare) (categories str_compare values).
Proof.
  apply categories_sorted;
    [exact str_compare_eq | exact str_compare_antisym | exact str_compare_trans].
Qed.

Lemma str_categories_NoDup values : NoDup (categories str_compare values).
Proof.
  apply (sorted_NoDup str_compare str_compare_eq). apply str_categories_sorted.
Qed.

(** As many categories as distinct strings. *)
Lemma length_categories values :
  length (categories str_compare values) = length (distinct_strings values).
Proof.
  apply Permutation_length. apply NoDup_Permutation.
  - apply str_categories_NoDup.
  - apply NoDup_nodup.
  - intros s. unfold distinct_strings.
    now rewrite nodup_In, present_In, str_In_categories.
Qed.




(** The dtype chosen for the codes holds every one of them: no code
    wraps around. *)
Lemma codes_fit_dtype values c :
  let n := length (categories str_compare values) in
  Z.of_nat n <= int_max int64 ->
  In c (codes str_compare values) ->
  -1 <= c < int_max (coerce_indexer_dtype n).
Proof.
  intros n Hn Hc. unfold codes in Hc. apply in_map_iff in Hc.
  destruct Hc as (v & <- & _).
  assert (Hb : -1 <= code_of str_compare (categories str_compare values) v
               < Z.of_nat n).
  { destruct v as [s|]; simpl; [apply get_indexer_bounds | lia]. }
  unfold coerce_indexer_dtype. fold n.
  destruct (Z.ltb_spec (Z.of_nat n) (int_max int8)); [lia|].
  destruct (Z.ltb_spec (Z.of_nat n) (int_max int16)); [lia|].
  destruct (Z.ltb_spec (Z.of_nat n) (int_max int32)); lia.
Qed.

Lemma encodes_as_code values s c :
  encodes_as values (codes str_compare values) s c ->
  In (Some s) values /\
  c = get_indexer str_compare (categories str_compare values) s.
Proof.
  intros (i & Hv & Hc). rewrite (codes_nth _ _ _ _ Hv) in Hc.
  injection Hc as <-. split; [eapply nth_error_In; eauto | reflexivity].
Qed.

Lemma column_at_encoded df i c :
  column_at df i = Some c -> column_at (encoded df) i = Some (encode_column c).
Proof.
  unfold column_at, encoded. cbn [columns]. intros H.
  now rewrite nth_error_map, H.
Qed.

Lemma encoded_idem df : encoded (encoded df) = encoded df.
Proof.
  unfold encoded. cbn [nrows columns]. f_equal. rewrite map_map.
  apply map_ext. intros c. unfold encode_column.
  destruct (is_object (snd c)) eqn:E; cbn [fst snd];
    rewrite ?is_object_Categorical_codes, ?E; reflexivity.
Qed.

Lemma object_column_replaced df i label values :
  well_formed df ->
  column_at df i = Some (label, ObjectSeries values) ->
  replaced_by_codes df i label (encoded df) (codes str_compare values).
Proof.
  intros Hwf Hcol. split.
  - now apply encode_categorical_spec.
  - eexists. now rewrite (column_at_encoded _ _ _ Hcol).
Qed.

(** * The encoder *)



(** The example of the specification: two codes, the same one for both
    [Eco] rows. *)
Example encode_eco_business_eco :
  encode_categorical
    (mk_frame 3 [("Class", ObjectSeries [Some "Eco"; Some "Business"; Some "Eco"])])
  = (mk_frame 3 [("Class", IntSeries int8 [1; 0; 1])], Ok tt).
Proof. reflexivity. Qed.




(** C4. The call leaves every integer column as it was, value for
    value; on a frame whose columns are all integer it changes nothing;
    and a second call changes nothing the first one left. *)
Theorem encode_categorical_integer_columns_unchanged :
  forall df,
    (Forall (fun c => is_object (snd c) = false) (columns df) ->
     encode_categorical df = (df, Ok tt)) /\
    (well_formed df ->
     exists df',
       encode_categorical df = (df', Ok tt) /\
       (forall i label dtype values,
           column_at df i = Some (label, IntSeries dtype values) ->
           column_at df' i = Some (label, IntSeries dtype values)) /\
       encode_categorical df' = (df', Ok tt)).
Proof.
  intros df. split.
  - intros Hall. unfold encode_categorical, select_object_columns.
    replace (filter (fun c => is_object (snd c)) (columns df)) with
      (@nil (string * Series)); [reflexivity|].
    induction Hall as [|c cols Hc _ IH]; simpl; [reflexivity|].
    now rewrite Hc.
  - intros Hwf. exists (encoded df).
    split; [now apply encode_categorical_spec|]. split.
    + intros i label dtype values Hcol.
      now rewrite (column_at_encoded _ _ _ Hcol).
    + rewrite encode_categorical_spec by now apply well_formed_encoded.
      now rewrite encoded_idem.
Qed.

Lemma encode_categorical_integer_columns_unchanged_sample :
  (Forall (fun c => is_object (snd c) = false) (columns integer_frame) /\
   encode_categorical integer_frame = (integer_frame, Ok tt)) /\
  (well_formed sample_frame /\
   exists df',
     encode_categorical sample_frame = (df', Ok tt) /\
     (forall i label dtype values,
         column_at sample_frame i = Some (label, IntSeries dtype values) ->
         column_at df' i = Some (label, IntSeries dtype values)) /\
     encode_categorical df' = (df', Ok tt)).
Proof.
  assert (Hint : Forall (fun c => is_object (snd c) = false)
                        (columns integer_frame))
    by (repeat constructor).
  assert (Hwf : well_formed sample_frame)
    by (apply well_formedb_sound; reflexivity).
  split; (split; [assumption|]).
  - exact (proj1 (encode_categorical_integer_columns_unchanged integer_frame) Hint).
  - exact (proj2 (encode_categorical_integer_columns_unchanged sample_frame) Hwf).
Defined.



Example encode_sample_frame :
  encode_categorical sample_frame
  = (mk_frame 3
       [ ("Age", IntSeries int64 [18; 41; 30]);
         ("Class", IntSeries int8 [1; 0; 1]);
         ("Loyal Customer", IntSeries int8 [1; -1; 0]) ], Ok tt).
Proof. reflexivity. Qed.



(** C9. On a well-formed frame the call raises nothing, an empty column
    included; a call that raises was given something that is not a
    frame, and what it raises then is the [AttributeError] of the
    lookup of [select_dtypes]. *)
Theorem encode_categorical_fails_only_on_non_frames :
  (forall df, well_formed df ->
              snd (encode_categorical df) = Ok tt /\
              snd (encode_categorical_call (PyDataFrame df))
              = Ok (PyDataFrame (fst (encode_categorical df)))) /\
  (forall label,
      encode_categorical (mk_frame 0 [(label, ObjectSeries [])])
      = (mk_frame 0 [(label, IntSeries int8 [])], Ok tt)) /\
  (forall arg e,
      (forall df, arg = PyDataFrame df -> well_formed df) ->
      snd (encode_categorical_call arg) = Raise e ->
      (forall df, arg <> PyDataFrame df) /\ exn_cls e = AttributeError) /\
  (forall arg,
      (forall df, arg <> PyDataFrame df) ->
      exists e, encode_categorical_call arg = (arg, Raise e)
                /\ exn_cls e = AttributeError).
Proof.
  split; [|split; [|split]].
  - intros df Hwf. unfold encode_categorical_call.
    rewrite (encode_categorical_spec df Hwf). auto.
  - intros label. unfold encode_categorical, select_object_columns.
    cbn. unfold bind, get, lift, getitem, setitem. cbn.
    now rewrite String.eqb_refl.
  - intros arg e Hwf Hr. destruct arg as [| | | | |df];
      try (injection Hr as <-; split; [discriminate | reflexivity]).
    exfalso. unfold encode_categorical_call in Hr.
    rewrite (encode_categorical_spec df (Hwf df eq_refl)) in Hr.
    discriminate.
  - intros arg Hn. destruct arg as [| | | | |df];
      try (eexists; split; reflexivity).
    exfalso. now apply (Hn df).
Qed.

Lemma encode_categorical_fails_only_on_non_frames_sample :
  (well_formed sample_frame /\
   snd (encode_categorical sample_frame) = Ok tt /\
   snd (encode_categorical_call (PyDataFrame sample_frame))
   = Ok (PyDataFrame (fst (encode_categorical sample_frame)))) /\
  ((forall df, PyList [[1; 2]; [3; 4]] <> PyDataFrame df) /\
   exists e, encode_categorical_call (PyList [[1; 2]; [3; 4]])
             = (PyList [[1; 2]; [3; 4]], Raise e)
             /\ exn_cls e = AttributeError).
Proof.
  destruct encode_categorical_fails_only_on_non_frames
    as (Hframe & _ & _ & Hother).
  assert (Hwf : well_formed sample_frame)
    by (apply well_formedb_sound; reflexivity).
  assert (Hn : forall df, PyList [[1; 2]; [3; 4]] <> PyDataFrame df)
    by (intros df; discriminate).
  split.
  - split; [exact Hwf | exact (Hframe sample_frame Hwf)].
  - split; [exact Hn | exact (Hother _ Hn)].
Defined.

(** C2. The codes of a column are a function of the set of strings the
    column holds in that call: two columns with the same strings give
    every string the same code.  Nothing else is shared between calls,
    so the record of a user and a reference table can give one string
    of one column two different codes. *)
Theorem encode_categorical_codes_per_call :
  (forall df1 df2 i1 i2 label values1 values2,
      well_formed df1 -> well_formed df2 ->
      column_at df1 i1 = Some (label, ObjectSeries values1) ->
      column_at df2 i2 = Some (label, ObjectSeries values2) ->
      (forall s, In (Some s) values1 <-> In (Some s) values2) ->
      exists df1' cs1 df2' cs2,
        replaced_by_codes df1 i1 label df1' cs1 /\
        replaced_by_codes df2 i2 label df2' cs2 /\
        forall s c c',
          encodes_as values1 cs1 s c -> encodes_as values2 cs2 s c' -> c = c') /\
  (exists w reference i label values1 values2 df1' cs1 df2' cs2 s c c',
      well_formed (user_input_features w) /\ well_formed reference /\
      column_at (user_input_features w) i = Some (label, ObjectSeries values1) /\
      column_at reference i = Some (label, ObjectSeries values2) /\
      replaced_by_codes (user_input_features w) i label df1' cs1 /\
      replaced_by_codes reference i label df2' cs2 /\
      encodes_as values1 cs1 s c /\ encodes_as values2 cs2 s c' /\
      c <> c').
Proof.
  split.
  - intros df1 df2 i1 i2 label values1 values2 Hwf1 Hwf2 Hc1 Hc2 Hset.
    exists (encoded df1), (codes str_compare values1),
           (encoded df2), (codes str_compare values2).
    split; [now apply object_column_replaced|].
    split; [now apply object_column_replaced|].
    intros s c c' H1 H2.
    apply encodes_as_code in H1. destruct H1 as [_ ->].
    apply encodes_as_code in H2. destruct H2 as [_ ->].
    now rewrite (categories_ext str_compare str_compare_eq str_compare_antisym
                   str_compare_trans values1 values2 Hset).
  - exists (mk_sidebar 3 3 3 3 3 18 100 "No" "No" "Eco Plus"), reference_rows,
           9%nat, "Class", [Some "Eco Plus"],
           [Some "Eco"; Some "Eco Plus"; Some "Business"].
    eexists. exists [0]. eexists. exists [1; 2; 0].
    exists "Eco Plus", 0, 2.
    split; [apply well_formedb_sound; reflexivity|].
    split; [apply well_formedb_sound; reflexivity|].
    split; [reflexivity|]. split; [reflexivity|].
    split; [split; [reflexivity | eexists; reflexivity]|].
    split; [split; [reflexivity | eexists; reflexivity]|].
    split; [exists 0%nat; split; reflexivity|].
    split; [exists 1%nat; split; reflexivity|].
    discriminate.
Qed.

Lemma encode_categorical_codes_per_call_sample :
  well_formed sample_frame /\ well_formed sample_slice /\
  column_at sample_frame 1 = Some ("Class", ObjectSeries eco_business_eco) /\
  column_at sample_slice 0
  = Some ("Class", ObjectSeries [Some "Business"; Some "Eco"]) /\
  (forall s, In (Some s) eco_business_eco
             <-> In (Some s) [Some "Business"; Some "Eco"]) /\
  exists df1' cs1 df2' cs2,
    replaced_by_codes sample_frame 1 "Class" df1' cs1 /\
    replaced_by_codes sample_slice 0 "Class" df2' cs2 /\
    forall s c c',
      encodes_as eco_business_eco cs1 s c ->
      encodes_as [Some "Business"; Some "Eco"] cs2 s c' -> c = c'.
Proof.
  assert (Hwf1 : well_formed sample_frame)
    by (apply well_formedb_sound; reflexivity).
  assert (Hwf2 : well_formed sample_slice)
    by (apply well_formedb_sound; reflexivity).
  assert (Hset : forall s, In (Some s) eco_business_eco
                           <-> In (Some s) [Some "Business"; Some "Eco"])
    by (intros s; unfold eco_business_eco; simpl; tauto).
  split; [exact Hwf1|]. split; [exact Hwf2|].
  split; [reflexivity|]. split; [reflexivity|].
  split; [exact Hset|].
  exact (proj1 encode_categorical_codes_per_call sample_frame sample_slice
           1%nat 0%nat "Class" eco_business_eco
           [Some "Business"; Some "Eco"] Hwf1 Hwf2 eq_refl eq_refl Hset).
Defined.

(** * The prediction request *)

Lemma well_formed_user_input_features w : well_formed (user_input_features w).
Proof. apply well_formedb_sound. reflexivity. Qed.

Section Request.

Variables Row ShapArray Expected Proba Explanation : Type.
Variable LIME_NUM_FEATURES : Z.
Variable as_html : Explanation -> result string.
Variable model : Model Row Proba.
Variable preprocessor : Preprocessor Row.
Variable explainer : Explainer Row ShapArray Expected.
Variable lime_explainer : LimeExplainer Row Proba Explanation.

Local Abbreviation body :=
  (try_body LIME_NUM_FEATURES model preprocessor explainer lime_explainer).
Local Abbreviation request :=
  (make_prediction LIME_NUM_FEATURES model preprocessor explainer
                   lime_explainer).
Local Abbreviation click :=
  (on_predict_button LIME_NUM_FEATURES as_html model preprocessor explainer
                     lime_explainer).
Local Abbreviation raises :=
  (raises_in_path LIME_NUM_FEATURES model preprocessor explainer
                  lime_explainer).

(** The [try] body, place by place. *)
Lemma try_body_cases s :
  (exists e, raises s e /\
             body s = (mk_session (fst (encode_categorical (input_df s)))
                                  (page s), Raise e)) \/
  (exists X p a ex p0,
      transform preprocessor (fst (encode_categorical (input_df s))) = Ok X /\
      predict model X = Ok p /\
      ndarray_subscript p 0 = Ok p0 /\
      body s = (mk_session (fst (encode_categorical (input_df s))) (page s),
                Ok (Some (if truthy p0 then "Satisfied 😊"
                          else "Not Satisfied 😞"),
                    Some a, Some (expected_value explainer),
                    Some X, Some ex))).
Proof.
  unfold try_body, transform_and_predict, bind, on_input_df, get, lift, ret.
  destruct (encode_categorical (input_df s)) as [df' [[]|e]] eqn:Eenc;
    cbn [fst snd input_df page];
    [|left; exists e; split; [eapply raises_in_encode; eauto | reflexivity]].
  destruct (transform preprocessor df') as [X|e] eqn:Et;
    [|left; exists e; split; [eapply raises_in_transform; eauto | reflexivity]].
  destruct (predict model X) as [p|e] eqn:Ep; cbn [fst snd];
    [|left; exists e; split; [eapply raises_in_predict; eauto | reflexivity]].
  destruct (shap_values explainer X) as [sv|e] eqn:Es;
    [|left; exists e; split; [eapply raises_in_shap; eauto | reflexivity]].
  destruct (second_class sv) as [a|e] eqn:Ec;
    [|left; exists e; split;
      [eapply raises_in_second_class; eauto | reflexivity]].
  destruct (ndarray_subscript X 0) as [row|e] eqn:Er;
    [|left; exists e; split; [eapply raises_in_data_row; eauto | reflexivity]].
  destruct (explain_instance lime_explainer row (predict_proba model)
                             LIME_NUM_FEATURES) as [ex|e] eqn:El;
    [|left; exists e; split; [eapply raises_in_lime; eauto | reflexivity]].
  destruct (ndarray_subscript p 0) as [p0|e] eqn:E0;
    [|left; exists e; split; [eapply raises_in_label; eauto | reflexivity]].
  right. exists X, p, a, ex, p0. auto.
Qed.

(** An exception has one place to come from. *)
Lemma raises_body s e :
  raises s e ->
  body s = (mk_session (fst (encode_categorical (input_df s))) (page s),
            Raise e).
Proof.
  intros H.
  unfold try_body, transform_and_predict, bind, on_input_df, get, lift, ret.
  destruct H as [df' Enc | df' Enc Et | df' X Enc Et Ep | df' X p Enc Et Ep Es
                | df' X p sv Enc Et Ep Es Ec | df' X p sv a Enc Et Ep Es Ec Er
                | df' X p sv a row Enc Et Ep Es Ec Er El
                | df' X p sv a row ex Enc Et Ep Es Ec Er El E0];
    rewrite Enc; cbn [fst snd input_df page];
    rewrite ?Et; cbn [fst snd]; rewrite ?Ep; cbn [fst snd];
    rewrite ?Es, ?Ec, ?Er, ?El, ?E0; reflexivity.
Qed.

Lemma make_prediction_returns s : exists s' r, request s = (s', Ok r).
Proof.
  unfold make_prediction, try_except.
  destruct (try_body_cases s)
    as [(e & _ & ->)|(X & p & a & ex & p0 & _ & _ & _ & ->)];
    eexists _, _; reflexivity.
Qed.

(** C6. Whatever raises in the [try] body (the encoder, transform,
    predict, the SHAP values, the LIME explanation) is caught:
    [make_prediction] raises nothing, hands back five [None], and one
    error box with the message of the exception is all the request
    adds to the page; the handler of the button renders nothing more. *)
Theorem make_prediction_catches_failures :
  forall s,
    (exists s' r, request s = (s', Ok r)) /\
    (forall s' e, body s = (s', Raise e) -> raises s e) /\
    (forall e, raises s e ->
               request s = (failed_session s e, Ok no_result) /\
               click s = (failed_session s e, Ok tt)).
Proof.
  intros s. split; [|split].
  - apply make_prediction_returns.
  - intros s' e Hb.
    destruct (try_body_cases s)
      as [(e' & Hr & Hb')|(X & p & a & ex & p0 & _ & _ & _ & Hb')];
      rewrite Hb' in Hb; [|discriminate].
    injection Hb as _ <-. exact Hr.
  - intros e Hr.
    assert (Hreq : request s = (failed_session s e, Ok no_result)).
    { unfold make_prediction, try_except. rewrite (raises_body s e Hr).
      reflexivity. }
    split; [exact Hreq|].
    unfold on_predict_button. unfold bind at 1. rewrite Hreq. reflexivity.
Qed.

End Request.

(** ** The request on concrete values *)

Lemma make_prediction_catches_failures_sample :
  raises_in_path 5 (constant_model 1) failing_preprocessor constant_explainer
                 constant_lime_explainer default_session
                 (mk_exn ValueError "columns are missing: {'Gender'}") /\
  make_prediction 5 (constant_model 1) failing_preprocessor constant_explainer
                  constant_lime_explainer default_session
  = (failed_session default_session
       (mk_exn ValueError "columns are missing: {'Gender'}"), Ok no_result) /\
  on_predict_button 5 constant_as_html (constant_model 1) failing_preprocessor
                    constant_explainer constant_lime_explainer default_session
  = (failed_session default_session
       (mk_exn ValueError "columns are missing: {'Gender'}"), Ok tt).
Proof.
  assert (Hr : raises_in_path 5 (constant_model 1) failing_preprocessor
                 constant_explainer constant_lime_explainer default_session
                 (mk_exn ValueError "columns are missing: {'Gender'}")).
  { eapply raises_in_transform; reflexivity. }
  split; [exact Hr|].
  exact (proj2 (proj2 (make_prediction_catches_failures Z Z Z Z string 5
                         constant_as_html (constant_model 1)
                         failing_preprocessor constant_explainer
                         constant_lime_explainer default_session)) _ Hr).
Defined.

(** What the user sees then: the error box and nothing else. *)
Example failed_request_page :
  page (fst (on_predict_button 5 constant_as_html (constant_model 1)
               failing_preprocessor constant_explainer constant_lime_explainer
               default_session))
  = [st_error_box "Error occurred during prediction: columns are missing: {'Gender'}. Please contact support."].
Proof. reflexivity. Qed.

(** * Further properties of the encoder *)

Lemma filter_none {A} (f : A -> bool) l :
  (forall x, In x l -> f x = false) -> filter f l = [].
Proof.
  induction l as [|a l IH]; simpl; [reflexivity|].
  intros H. rewrite (H a (or_introl eq_refl)). apply IH. auto.
Qed.

Lemma sorts_before_iff t s : sorts_before t s = true <-> str_compare t s = Lt.
Proof.
  unfold sorts_before. destruct (str_compare t s); split; congruence.
Qed.

Lemma sorted_count_before l :
  StronglySorted (precedes str_compare) l ->
  forall i s, nth_error l i = Some s ->
              length (filter (fun t => sorts_before t s) l) = i.
Proof.
  induction 1 as [|b l Hs IH Hb]; intros i s Hi.
  - destruct i; discriminate.
  - rewrite Forall_forall in Hb. destruct i as [|i]; simpl in Hi.
    + injection Hi as <-. simpl.
      replace (sorts_before b b) with false.
      * rewrite filter_none; [reflexivity|].
        intros x Hx. unfold sorts_before.
        rewrite (str_compare_antisym b x), (Hb x Hx). reflexivity.
      * unfold sorts_before.
        now rewrite (proj2 (str_compare_eq b b) eq_refl).
    + simpl.
      rewrite (proj2 (sorts_before_iff b s) (Hb s (nth_error_In _ _ Hi))).
      simpl. f_equal. now apply IH.
Qed.

Lemma categories_distinct_strings values :
  Permutation (categories str_compare values) (distinct_strings values).
Proof.
  apply NoDup_Permutation.
  - apply str_categories_NoDup.
  - apply NoDup_nodup.
  - intros s. unfold distinct_strings.
    now rewrite nodup_In, present_In, str_In_categories.
Qed.

Lemma In_distinct_strings s values :
  In s (distinct_strings values) <-> In (Some s) values.
Proof. unfold distinct_strings. now rewrite nodup_In, present_In. Qed.

Lemma code_is_rank values s :
  In (Some s) values ->
  get_indexer str_compare (categories str_compare values) s = rank values s.
Proof.
  intros Hs.
  destruct (get_indexer_In str_compare str_compare_eq
              (categories str_compare values) s) as [H0 Hn];
    [now apply str_In_categories|].
  apply (sorted_count_before _ (str_categories_sorted values)) in Hn.
  unfold rank.
  rewrite <- (Permutation_length
                (l := filter (fun t => sorts_before t s)
                             (categories str_compare values))).
  - rewrite Hn. lia.
  - apply NoDup_Permutation.
    + apply NoDup_filter, str_categories_NoDup.
    + apply NoDup_filter, NoDup_nodup.
    + intros t. rewrite !filter_In, In_distinct_strings, str_In_categories.
      tauto.
Qed.

Lemma rank_incl values1 values2 s :
  (forall t, In (Some t) values1 -> In (Some t) values2) ->
  rank values1 s <= rank values2 s.
Proof.
  intros Hsub. unfold rank. apply inj_le. apply NoDup_incl_length.
  - apply NoDup_filter, NoDup_nodup.
  - intros t Ht. apply filter_In in Ht. destruct Ht as [Ht Hb].
    apply filter_In. split; [|exact Hb].
    apply In_distinct_strings, Hsub. now apply In_distinct_strings.
Qed.

Lemma rank_zero values s :
  rank values s = 0 <->
  (forall t, In (Some t) values -> str_compare t s <> Lt).
Proof.
  unfold rank. split.
  - intros H t Ht Hlt.
    assert (Hin : In t (filter (fun t => sorts_before t s)
                               (distinct_strings values))).
    { apply filter_In. split; [now apply In_distinct_strings|].
      now apply sorts_before_iff. }
    destruct (filter _ _); [exact Hin | simpl in H; lia].
  - intros H. rewrite filter_none; [reflexivity|].
    intros t Ht. apply In_distinct_strings in Ht.
    destruct (sorts_before t s) eqn:E; [|reflexivity].
    exfalso. apply (H t Ht). now apply sorts_before_iff.
Qed.

Lemma insert_rename f a l :
  (forall a b, str_compare (f a) (f b) = str_compare a b) ->
  insert str_compare (f a) (map f l) = map f (insert str_compare a l).
Proof.
  intros Hf. induction l as [|b l IH]; simpl; [reflexivity|].
  rewrite Hf. destruct (str_compare a b); simpl; congruence.
Qed.

Lemma categories_rename f values :
  (forall a b, str_compare (f a) (f b) = str_compare a b) ->
  categories str_compare (rename f values)
  = map f (categories str_compare values).
Proof.
  intros Hf. unfold rename.
  induction values as [|[a|] values IH]; simpl; auto.
  rewrite IH. now apply insert_rename.
Qed.

Lemma get_indexer_rename f cats s :
  (forall a b, str_compare (f a) (f b) = str_compare a b) ->
  get_indexer str_compare (map f cats) (f s) = get_indexer str_compare cats s.
Proof.
  intros Hf. induction cats as [|c cats IH]; simpl; [reflexivity|].
  now rewrite Hf, IH.
Qed.

Lemma codes_rename f values :
  (forall a b, str_compare (f a) (f b) = str_compare a b) ->
  codes str_compare (rename f values) = codes str_compare values.
Proof.
  intros Hf. unfold codes. rewrite (categories_rename f values Hf).
  unfold rename. rewrite map_map. apply map_ext.
  intros [a|]; simpl; [now apply get_indexer_rename | reflexivity].
Qed.

Lemma prefixed_keeps_order a b :
  str_compare (prefixed a) (prefixed b) = str_compare a b.
Proof. reflexivity. Qed.

(** X1. The call keeps the labels of the frame, in their order, so the
    number of columns too, and what it leaves is again a well-formed
    frame. *)
Theorem encode_categorical_keeps_labels :
  forall df,
    well_formed df ->
    exists df',
      encode_categorical df = (df', Ok tt) /\
      map fst (columns df') = map fst (columns df) /\
      length (columns df') = length (columns df) /\
      well_formed df'.
Proof.
  intros df Hwf. exists (encoded df).
  split; [now apply encode_categorical_spec|].
  assert (Hl : map fst (columns (encoded df)) = map fst (columns df)).
  { unfold encoded. cbn [columns]. rewrite map_map. apply map_ext.
    intros c. unfold encode_column. now destruct (is_object (snd c)). }
  split; [exact Hl|]. split; [|now apply well_formed_encoded].
  unfold encoded. cbn [columns]. apply length_map.
Qed.

Lemma encode_categorical_keeps_labels_sample :
  well_formed reference_rows /\
  exists df',
    encode_categorical reference_rows = (df', Ok tt) /\
    map fst (columns df') = map fst (columns reference_rows) /\
    length (columns df') = length (columns reference_rows) /\
    well_formed df'.
Proof.
  assert (Hwf : well_formed reference_rows)
    by (apply well_formedb_sound; reflexivity).
  split; [exact Hwf|].
  exact (encode_categorical_keeps_labels reference_rows Hwf).
Defined.

(** X2. The code of a string is its rank: the number of distinct
    strings of the column that sort before it. *)
Theorem encode_categorical_code_is_rank :
  forall df i label values,
    well_formed df ->
    column_at df i = Some (label, ObjectSeries values) ->
    exists df' cs,
      replaced_by_codes df i label df' cs /\
      forall s c, encodes_as values cs s c -> c = rank values s.
Proof.
  intros df i label values Hwf Hcol.
  exists (encoded df), (codes str_compare values).
  split; [now apply object_column_replaced|].
  intros s c Hs. apply encodes_as_code in Hs. destruct Hs as [Hs ->].
  now apply code_is_rank.
Qed.

Lemma encode_categorical_code_is_rank_sample :
  well_formed sample_frame /\
  column_at sample_frame 1 = Some ("Class", ObjectSeries eco_business_eco) /\
  exists df' cs,
    replaced_by_codes sample_frame 1 "Class" df' cs /\
    forall s c, encodes_as eco_business_eco cs s c ->
                c = rank eco_business_eco s.
Proof.
  assert (Hwf : well_formed sample_frame)
    by (apply well_formedb_sound; reflexivity).
  split; [exact Hwf|]. split; [reflexivity|].
  exact (encode_categorical_code_is_rank sample_frame 1 "Class"
           eco_business_eco Hwf eq_refl).
Defined.

(** X3. The codes see the order of the strings and nothing else of
    them: a column and the same column with its strings renamed by a
    map that keeps the order get the same codes, row for row. *)
Theorem encode_categorical_order_only :
  forall f df1 df2 i1 i2 label1 label2 values,
    (forall a b, str_compare (f a) (f b) = str_compare a b) ->
    well_formed df1 -> well_formed df2 ->
    column_at df1 i1 = Some (label1, ObjectSeries values) ->
    column_at df2 i2 = Some (label2, ObjectSeries (rename f values)) ->
    exists df1' df2' cs,
      replaced_by_codes df1 i1 label1 df1' cs /\
      replaced_by_codes df2 i2 label2 df2' cs.
Proof.
  intros f df1 df2 i1 i2 label1 label2 values Hf Hwf1 Hwf2 Hc1 Hc2.
  exists (encoded df1), (encoded df2), (codes str_compare values).
  split; [now apply object_column_replaced|].
  rewrite <- (codes_rename f values Hf).
  now apply object_column_replaced.
Qed.

Lemma encode_categorical_order_only_sample :
  (forall a b, str_compare (prefixed a) (prefixed b) = str_compare a b) /\
  well_formed sample_frame /\ well_formed renamed_slice /\
  column_at sample_frame 1 = Some ("Class", ObjectSeries eco_business_eco) /\
  column_at renamed_slice 0
  = Some ("Travel class", ObjectSeries (rename prefixed eco_business_eco)) /\
  exists df1' df2' cs,
    replaced_by_codes sample_frame 1 "Class" df1' cs /\
    replaced_by_codes renamed_slice 0 "Travel class" df2' cs.
Proof.
  assert (Hwf1 : well_formed sample_frame)
    by (apply well_formedb_sound; reflexivity).
  assert (Hwf2 : well_formed renamed_slice)
    by (apply well_formedb_sound; reflexivity).
  split; [exact prefixed_keeps_order|].
  split; [exact Hwf1|]. split; [exact Hwf2|].
  split; [reflexivity|]. split; [reflexivity|].
  exact (encode_categorical_order_only prefixed sample_frame renamed_slice
           1%nat 0%nat "Class" "Travel class" eco_business_eco
           prefixed_keeps_order Hwf1 Hwf2 eq_refl eq_refl).
Defined.

(** X4. Codes only drift upwards: when every string of one column also
    occurs in another, no string of the first has a smaller code in the
    second. *)
Theorem encode_categorical_codes_grow :
  forall df1 df2 i1 i2 label values1 values2,
    well_formed df1 -> well_formed df2 ->
    column_at df1 i1 = Some (label, ObjectSeries values1) ->
    column_at df2 i2 = Some (label, ObjectSeries values2) ->
    (forall t, In (Some t) values1 -> In (Some t) values2) ->
    exists df1' cs1 df2' cs2,
      replaced_by_codes df1 i1 label df1' cs1 /\
      replaced_by_codes df2 i2 label df2' cs2 /\
      forall s c c',
        encodes_as values1 cs1 s c -> encodes_as values2 cs2 s c' -> c <= c'.
Proof.
  intros df1 df2 i1 i2 label values1 values2 Hwf1 Hwf2 Hc1 Hc2 Hsub.
  exists (encoded df1), (codes str_compare values1),
         (encoded df2), (codes str_compare values2).
  split; [now apply object_column_replaced|].
  split; [now apply object_column_replaced|].
  intros s c c' H1 H2.
  apply encodes_as_code in H1. destruct H1 as [Hs1 ->].
  apply encodes_as_code in H2. destruct H2 as [Hs2 ->].
  rewrite (code_is_rank _ _ Hs1), (code_is_rank _ _ Hs2).
  now apply rank_incl.
Qed.

Lemma encode_categorical_codes_grow_sample :
  well_formed sample_slice /\ well_formed reference_rows /\
  column_at sample_slice 0
  = Some ("Class", ObjectSeries [Some "Business"; Some "Eco"]) /\
  column_at reference_rows 9
  = Some ("Class",
          ObjectSeries [Some "Eco"; Some "Eco Plus"; Some "Business"]) /\
  (forall t, In (Some t) [Some "Business"; Some "Eco"] ->
             In (Some t) [Some "Eco"; Some "Eco Plus"; Some "Business"]) /\
  exists df1' cs1 df2' cs2,
    replaced_by_codes sample_slice 0 "Class" df1' cs1 /\
    replaced_by_codes reference_rows 9 "Class" df2' cs2 /\
    forall s c c',
      encodes_as [Some "Business"; Some "Eco"] cs1 s c ->
      encodes_as [Some "Eco"; Some "Eco Plus"; Some "Business"] cs2 s c' ->
      c <= c'.
Proof.
  assert (Hwf1 : well_formed sample_slice)
    by (apply well_formedb_sound; reflexivity).
  assert (Hwf2 : well_formed reference_rows)
    by (apply well_formedb_sound; reflexivity).
  assert (Hsub : forall t, In (Some t) [Some "Business"; Some "Eco"] ->
                 In (Some t) [Some "Eco"; Some "Eco Plus"; Some "Business"])
    by (intros t; simpl; tauto).
  split; [exact Hwf1|]. split; [exact Hwf2|].
  split; [reflexivity|]. split; [reflexivity|]. split; [exact Hsub|].
  exact (encode_categorical_codes_grow sample_slice reference_rows 0%nat 9%nat
           "Class" _ _ Hwf1 Hwf2 eq_refl eq_refl Hsub).
Defined.

(** X5. The string of a one-row column gets there the code it has in a
    table holding it exactly when no string of that table's column sorts
    before it: the record of one user agrees with a reference table on
    the smallest string of each column only. *)
Theorem encode_categorical_one_row_agreement :
  forall record reference i1 i2 label s values,
    well_formed record -> well_formed reference ->
    column_at record i1 = Some (label, ObjectSeries [Some s]) ->
    column_at reference i2 = Some (label, ObjectSeries values) ->
    In (Some s) values ->
    exists record' cs1 reference' cs2,
      replaced_by_codes record i1 label record' cs1 /\
      replaced_by_codes reference i2 label reference' cs2 /\
      forall c c',
        encodes_as [Some s] cs1 s c -> encodes_as values cs2 s c' ->
        (c = c' <-> forall t, In (Some t) values -> str_compare t s <> Lt).
Proof.
  intros record reference i1 i2 label s values Hwf1 Hwf2 Hc1 Hc2 Hs.
  exists (encoded record), (codes str_compare [Some s]),
         (encoded reference), (codes str_compare values).
  split; [now apply object_column_replaced|].
  split; [now apply object_column_replaced|].
  intros c c' H1 H2.
  apply encodes_as_code in H1. destruct H1 as [_ ->].
  apply encodes_as_code in H2. destruct H2 as [_ ->].
  rewrite (code_is_rank values s Hs). simpl.
  rewrite (proj2 (str_compare_eq s s) eq_refl).
  rewrite <- rank_zero. split; intros H; now rewrite H.
Qed.

Lemma encode_categorical_one_row_agreement_sample :
  well_formed (user_input_features default_sidebar) /\
  well_formed reference_rows /\
  column_at (user_input_features default_sidebar) 9
  = Some ("Class", ObjectSeries [Some "Eco"]) /\
  column_at reference_rows 9
  = Some ("Class",
          ObjectSeries [Some "Eco"; Some "Eco Plus"; Some "Business"]) /\
  In (Some "Eco") [Some "Eco"; Some "Eco Plus"; Some "Business"] /\
  exists record' cs1 reference' cs2,
    replaced_by_codes (user_input_features default_sidebar) 9 "Class"
                      record' cs1 /\
    replaced_by_codes reference_rows 9 "Class" reference' cs2 /\
    forall c c',
      encodes_as [Some "Eco"] cs1 "Eco" c ->
      encodes_as [Some "Eco"; Some "Eco Plus"; Some "Business"] cs2 "Eco" c' ->
      (c = c' <->
       forall t, In (Some t) [Some "Eco"; Some "Eco Plus"; Some "Business"] ->
                 str_compare t "Eco" <> Lt).
Proof.
  assert (Hwf1 : well_formed (user_input_features default_sidebar))
    by (apply well_formedb_sound; reflexivity).
  assert (Hwf2 : well_formed reference_rows)
    by (apply well_formedb_sound; reflexivity).
  assert (Hs : In (Some "Eco") [Some "Eco"; Some "Eco Plus"; Some "Business"])
    by (left; reflexivity).
  split; [exact Hwf1|]. split; [exact Hwf2|].
  split; [reflexivity|]. split; [reflexivity|]. split; [exact Hs|].
  exact (encode_categorical_one_row_agreement
           (user_input_features default_sidebar) reference_rows 9%nat 9%nat
           "Class" "Eco" _ Hwf1 Hwf2 eq_refl eq_refl Hs).
Defined.

(** * Further properties of the request *)

Lemma one_row_codes s :
  Categorical_codes (ObjectSeries [Some s]) = IntSeries int8 [0].
Proof.
  unfold Categorical_codes, codes. simpl.
  now rewrite (proj2 (str_compare_eq s s) eq_refl).
Qed.

Lemma encode_user_input_features w :
  encode_categorical (user_input_features w) = (encoded_record w, Ok tt).
Proof.
  rewrite (encode_categorical_spec _ (well_formed_user_input_features w)).
  unfold encoded, user_input_features, encoded_record. cbn [nrows columns map].
  unfold encode_column. cbn [fst snd is_object].
  now rewrite !one_row_codes.
Qed.

Lemma encoded_record_same_numbers w w' :
  same_numbers w w' -> encoded_record w = encoded_record w'.
Proof.
  intros (H1 & H2 & H3 & H4 & H5 & H6 & H7). unfold encoded_record.
  now rewrite H1, H2, H3, H4, H5, H6, H7.
Qed.

(** X6. Of the record of the sidebar the encoder keeps the seven
    numbers and turns each of the three choices into 0, whatever was
    chosen: two states of the sidebar with the same numbers are encoded
    to the same frame. *)
Theorem user_input_features_choices_encoded_away :
  (forall w,
      encode_categorical (user_input_features w) = (encoded_record w, Ok tt)) /\
  (forall w w',
      same_numbers w w' ->
      encode_categorical (user_input_features w)
      = encode_categorical (user_input_features w')).
Proof.
  split; [exact encode_user_input_features|].
  intros w w' H. rewrite !encode_user_input_features.
  now rewrite (encoded_record_same_numbers w w' H).
Qed.

Lemma user_input_features_choices_encoded_away_sample :
  same_numbers default_sidebar other_choices_sidebar /\
  encode_categorical (user_input_features default_sidebar)
  = encode_categorical (user_input_features other_choices_sidebar).
Proof.
  assert (H : same_numbers default_sidebar other_choices_sidebar)
    by (repeat split).
  split; [exact H|].
  exact (proj2 user_input_features_choices_encoded_away
           default_sidebar other_choices_sidebar H).
Defined.

Section RequestFurther.

Variables Row ShapArray Expected Proba Explanation : Type.
Variable LIME_NUM_FEATURES : Z.
Variable as_html : Explanation -> result string.
Variable model : Model Row Proba.
Variable preprocessor : Preprocessor Row.
Variable explainer : Explainer Row ShapArray Expected.
Variable lime_explainer : LimeExplainer Row Proba Explanation.

Local Abbreviation body :=
  (try_body LIME_NUM_FEATURES model preprocessor explainer lime_explainer).
Local Abbreviation request :=
  (make_prediction LIME_NUM_FEATURES model preprocessor explainer
                   lime_explainer).
Local Abbreviation click :=
  (on_predict_button LIME_NUM_FEATURES as_html model preprocessor explainer
                     lime_explainer).
Local Abbreviation raises :=
  (raises_in_path LIME_NUM_FEATURES model preprocessor explainer
                  lime_explainer).

(** The request reads the session through the encoder only. *)
Lemma request_reads_encoding s1 s2 :
  encode_categorical (input_df s1) = encode_categorical (input_df s2) ->
  page s1 = page s2 ->
  request s1 = request s2 /\ click s1 = click s2.
Proof.
  intros E P.
  assert (Hb : body s1 = body s2).
  { unfold try_body, transform_and_predict, bind, on_input_df, get, lift, ret.
    now rewrite E, P. }
  assert (Hr : request s1 = request s2).
  { unfold make_prediction, try_except. rewrite Hb.
    destruct (body s2) as [s' [r|e]]; [reflexivity|].
    reflexivity. }
  split; [exact Hr|].
  unfold on_predict_button. unfold bind at 1 3. now rewrite Hr.
Qed.

(** The two ways a request ends. *)
Lemma request_cases s :
  (exists X p0 p a ex,
      transform preprocessor (fst (encode_categorical (input_df s))) = Ok X /\
      predict model X = Ok (p0 :: p) /\
      request s
      = (mk_session (fst (encode_categorical (input_df s))) (page s),
         Ok (Some (if truthy p0 then "Satisfied 😊" else "Not Satisfied 😞"),
             Some a, Some (expected_value explainer), Some X, Some ex))) \/
  (exists e, raises s e /\ request s = (failed_session s e, Ok no_result)).
Proof.
  unfold make_prediction, try_except.
  destruct (try_body_cases _ _ _ _ _ LIME_NUM_FEATURES model preprocessor
              explainer lime_explainer s)
    as [(e & Hr & ->)|(X & p & a & ex & p0 & Ht & Hp & H0 & ->)].
  - right. exists e. split; [exact Hr | reflexivity].
  - left. destruct p as [|q p]; [discriminate|].
    injection H0 as ->. exists X, p0, p, a, ex. auto.
Qed.

(** X7. The request does not see the three select boxes: for two states
    of the sidebar with the same numbers, [make_prediction] and the
    handler of the button end in the same session with the same
    result. *)
Theorem make_prediction_ignores_choices :
  forall w w' rendered,
    same_numbers w w' ->
    request (mk_session (user_input_features w) rendered)
    = request (mk_session (user_input_features w') rendered) /\
    click (mk_session (user_input_features w) rendered)
    = click (mk_session (user_input_features w') rendered).
Proof.
  intros w w' rendered H. apply request_reads_encoding; [|reflexivity].
  cbn [input_df]. rewrite !encode_user_input_features.
  now rewrite (encoded_record_same_numbers w w' H).
Qed.

(** X8. [make_prediction] hands back all five values or none: either
    the label of the first entry of the prediction with the SHAP array,
    the expected value, the matrix and the explanation, and the page as
    it was; or five [None] and one error box more. *)
Theorem make_prediction_all_or_nothing :
  forall s,
    (exists X p0 p a ex,
        transform preprocessor (fst (encode_categorical (input_df s))) = Ok X /\
        predict model X = Ok (p0 :: p) /\
        request s
        = (mk_session (fst (encode_categorical (input_df s))) (page s),
           Ok (Some (if truthy p0 then "Satisfied 😊" else "Not Satisfied 😞"),
               Some a, Some (expected_value explainer), Some X, Some ex))) \/
    (exists e, request s = (failed_session s e, Ok no_result)).
Proof.
  intros s. destruct (request_cases s) as [H|(e & _ & H)].
  - left. exact H.
  - right. exists e. exact H.
Qed.

(** X9. The request encodes the frame of the caller in place: after
    [make_prediction], and after the handler of the button, [input_df]
    is the encoded record and holds no object column, whether the
    libraries raised or not. *)
Theorem make_prediction_leaves_input_encoded :
  forall s,
    well_formed (input_df s) ->
    input_df (fst (request s)) = encoded (input_df s) /\
    input_df (fst (click s)) = encoded (input_df s) /\
    Forall (fun c => is_object (snd c) = false)
           (columns (input_df (fst (request s)))).
Proof.
  intros s Hwf.
  assert (Hreq : input_df (fst (request s)) = encoded (input_df s)).
  { destruct (request_cases s) as [(X & p0 & p & a & ex & _ & _ & ->)
                                  |(e & _ & ->)];
      unfold failed_session; cbn [fst input_df];
      now rewrite (encode_categorical_spec _ Hwf). }
  split; [exact Hreq|]. split.
  - rewrite <- Hreq. unfold on_predict_button. unfold bind at 1.
    destruct (request s) as [s' [[[[[label a] ev] X] ex]|e]];
      [|reflexivity].
    cbn [fst]. destruct label as [[|c label]|]; try reflexivity.
    unfold bind, st_write, st_components_html, render, lift.
    cbn [input_df page].
    destruct ex as [ex|]; [destruct (as_html ex)|]; reflexivity.
  - rewrite Hreq. apply Forall_forall. intros c Hc.
    unfold encoded in Hc. cbn [columns] in Hc. apply in_map_iff in Hc.
    destruct Hc as (c0 & <- & _). unfold encode_column.
    destruct (is_object (snd c0)) eqn:E; cbn [snd]; auto.
    apply is_object_Categorical_codes.
Qed.

(** X10. When [make_prediction] hands back a label and [as_html] goes
    through, the handler of the button adds to the page the line of the
    prediction, the heading of the LIME explanation and its HTML, in
    this order, and nothing else. *)
Theorem on_predict_button_renders_result :
  forall s s' label a ev X ex html,
    make_prediction LIME_NUM_FEATURES model preprocessor explainer
                    lime_explainer s
    = (s', Ok (Some label, a, ev, X, Some ex)) ->
    as_html ex = Ok html ->
    on_predict_button LIME_NUM_FEATURES as_html model preprocessor explainer
                      lime_explainer s
    = (mk_session (input_df s')
         (page s' ++ [st_markdown ("### Prediction: " ++ label);
                      st_markdown "### LIME Explanation:";
                      st_html html]),
       Ok tt).
Proof.
  intros s s' label a ev X ex html Hreq Hhtml.
  assert (Hl : label = "Satisfied 😊" \/ label = "Not Satisfied 😞").
  { destruct (request_cases s) as [(X0 & p0 & p & a0 & ex0 & _ & _ & H)
                                  |(e & _ & H)];
      rewrite H in Hreq; [|discriminate].
    inversion Hreq. destruct (truthy p0); auto. }
  unfold on_predict_button. unfold bind at 1. rewrite Hreq.
  destruct Hl as [-> | ->];
    unfold bind, st_write, st_components_html, render, lift;
    cbn [input_df page]; rewrite Hhtml; cbn [input_df page];
    rewrite <- !app_assoc; reflexivity.
Qed.

(** X11. An exception of [as_html] is outside the [try]: the handler
    of the button raises it, with the line of the prediction and the
    heading already on the page. *)
Theorem on_predict_button_as_html_not_caught :
  forall s s' label a ev X ex e,
    make_prediction LIME_NUM_FEATURES model preprocessor explainer
                    lime_explainer s
    = (s', Ok (Some label, a, ev, X, Some ex)) ->
    as_html ex = Raise e ->
    on_predict_button LIME_NUM_FEATURES as_html model preprocessor explainer
                      lime_explainer s
    = (mk_session (input_df s')
         (page s' ++ [st_markdown ("### Prediction: " ++ label);
                      st_markdown "### LIME Explanation:"]),
       Raise e).
Proof.
  intros s s' label a ev X ex e Hreq Hhtml.
  assert (Hl : label = "Satisfied 😊" \/ label = "Not Satisfied 😞").
  { destruct (request_cases s) as [(X0 & p0 & p & a0 & ex0 & _ & _ & H)
                                  |(e0 & _ & H)];
      rewrite H in Hreq; [|discriminate].
    inversion Hreq. destruct (truthy p0); auto. }
  unfold on_predict_button. unfold bind at 1. rewrite Hreq.
  destruct Hl as [-> | ->];
    unfold bind, st_write, st_components_html, render, lift;
    cbn [input_df page]; rewrite Hhtml; cbn [input_df page];
    rewrite <- !app_assoc; reflexivity.
Qed.

(** X12. The subscripts of the [try] body are within its reach: a list
    of SHAP arrays with fewer than two entries, a transformed matrix
    with no row and a prediction with no entry each end the request
    with an [IndexError] turned into the error box, although transform
    and predict went through. *)
Theorem make_prediction_subscripts_out_of_range :
  forall s df' X p,
    encode_categorical (input_df s) = (df', Ok tt) ->
    transform preprocessor df' = Ok X ->
    predict model X = Ok p ->
    (forall per_class,
        shap_values explainer X = Ok (ShapList per_class) ->
        (length per_class < 2)%nat ->
        exists e, exn_cls e = IndexError /\
                  request s = (failed_session s e, Ok no_result)) /\
    (forall sv a,
        shap_values explainer X = Ok sv -> second_class sv = Ok a ->
        X = [] ->
        exists e, exn_cls e = IndexError /\
                  request s = (failed_session s e, Ok no_result)) /\
    (forall sv a row ex,
        shap_values explainer X = Ok sv -> second_class sv = Ok a ->
        ndarray_subscript X 0 = Ok row ->
        explain_instance lime_explainer row (predict_proba model)
                         LIME_NUM_FEATURES = Ok ex ->
        p = [] ->
        exists e, exn_cls e = IndexError /\
                  request s = (failed_session s e, Ok no_result)).
Proof.
  intros s df' X p Henc Ht Hp.
  assert (Hfail : forall e, raises s e ->
                            request s = (failed_session s e, Ok no_result)).
  { intros e Hr. unfold make_prediction, try_except.
    rewrite (raises_body _ _ _ _ _ LIME_NUM_FEATURES model preprocessor
               explainer lime_explainer s e Hr). reflexivity. }
  split; [|split].
  - intros l Hs Hlen. eexists. split; [|apply Hfail].
    2:{ eapply raises_in_second_class; eauto.
        unfold second_class, subscript.
        rewrite (proj2 (nth_error_None l 1)) by lia. reflexivity. }
    reflexivity.
  - intros sv a Hs Hc ->. eexists. split; [|apply Hfail].
    2:{ eapply raises_in_data_row; eauto. reflexivity. }
    reflexivity.
  - intros sv a row ex Hs Hc Hrow Hl ->. eexists. split; [|apply Hfail].
    2:{ eapply raises_in_label; eauto. reflexivity. }
    reflexivity.
Qed.

End RequestFurther.

(** ** The further properties on concrete values *)

Lemma make_prediction_ignores_choices_sample :
  same_numbers default_sidebar other_choices_sidebar /\
  make_prediction 5 (constant_model 1) constant_preprocessor
                  constant_explainer constant_lime_explainer
                  (mk_session (user_input_features default_sidebar) [])
  = make_prediction 5 (constant_model 1) constant_preprocessor
                    constant_explainer constant_lime_explainer
                    (mk_session (user_input_features other_choices_sidebar) []) /\
  on_predict_button 5 constant_as_html (constant_model 1)
                    constant_preprocessor constant_explainer
                    constant_lime_explainer
                    (mk_session (user_input_features default_sidebar) [])
  = on_predict_button 5 constant_as_html (constant_model 1)
                      constant_preprocessor constant_explainer
                      constant_lime_explainer
                      (mk_session (user_input_features other_choices_sidebar) []).
Proof.
  assert (H : same_numbers default_sidebar other_choices_sidebar)
    by (repeat split).
  split; [exact H|].
  exact (make_prediction_ignores_choices Z Z Z Z string 5 constant_as_html
           (constant_model 1) constant_preprocessor constant_explainer
           constant_lime_explainer default_sidebar other_choices_sidebar [] H).
Defined.

Lemma make_prediction_leaves_input_encoded_sample :
  well_formed (input_df default_session) /\
  input_df (fst (constant_request 1 failing_preprocessor))
  = encoded (input_df default_session) /\
  input_df (fst (on_predict_button 5 constant_as_html (constant_model 1)
                   failing_preprocessor constant_explainer
                   constant_lime_explainer default_session))
  = encoded (input_df default_session) /\
  Forall (fun c => is_object (snd c) = false)
         (columns (input_df (fst (constant_request 1 failing_preprocessor)))).
Proof.
  assert (Hwf : well_formed (input_df default_session))
    by (apply well_formedb_sound; reflexivity).
  split; [exact Hwf|].
  exact (make_prediction_leaves_input_encoded Z Z Z Z string 5 constant_as_html
           (constant_model 1) failing_preprocessor constant_explainer
           constant_lime_explainer default_session Hwf).
Defined.

Lemma on_predict_button_renders_result_sample :
  constant_request 1 constant_preprocessor
  = (mk_session (encoded_record default_sidebar) [],
     Ok (Some "Satisfied 😊", Some 0, Some 0, Some [0],
         Some "<div>lime</div>")) /\
  constant_as_html "<div>lime</div>" = Ok "<div>lime</div>" /\
  on_predict_button 5 constant_as_html (constant_model 1)
                    constant_preprocessor constant_explainer
                    constant_lime_explainer default_session
  = (mk_session (encoded_record default_sidebar)
       [st_markdown "### Prediction: Satisfied 😊";
        st_markdown "### LIME Explanation:";
        st_html "<div>lime</div>"],
     Ok tt).
Proof.
  split; [reflexivity|]. split; [reflexivity|].
  exact (on_predict_button_renders_result Z Z Z Z string 5 constant_as_html
           (constant_model 1) constant_preprocessor constant_explainer
           constant_lime_explainer default_session
           (mk_session (encoded_record default_sidebar) [])
           "Satisfied 😊" (Some 0) (Some 0) (Some [0]) "<div>lime</div>"
           "<div>lime</div>" eq_refl eq_refl).
Defined.

Lemma on_predict_button_as_html_not_caught_sample :
  constant_request 0 constant_preprocessor
  = (mk_session (encoded_record default_sidebar) [],
     Ok (Some "Not Satisfied 😞", Some 0, Some 0, Some [0],
         Some "<div>lime</div>")) /\
  failing_as_html "<div>lime</div>"
  = Raise (mk_exn (OtherException "RuntimeError") "no html") /\
  on_predict_button 5 failing_as_html (constant_model 0)
                    constant_preprocessor constant_explainer
                    constant_lime_explainer default_session
  = (mk_session (encoded_record default_sidebar)
       [st_markdown "### Prediction: Not Satisfied 😞";
        st_markdown "### LIME Explanation:"],
     Raise (mk_exn (OtherException "RuntimeError") "no html")).
Proof.
  split; [reflexivity|]. split; [reflexivity|].
  exact (on_predict_button_as_html_not_caught Z Z Z Z string 5 failing_as_html
           (constant_model 0) constant_preprocessor constant_explainer
           constant_lime_explainer default_session
           (mk_session (encoded_record default_sidebar) [])
           "Not Satisfied 😞" (Some 0) (Some 0) (Some [0]) "<div>lime</div>"
           (mk_exn (OtherException "RuntimeError") "no html")
           eq_refl eq_refl).
Defined.

Lemma make_prediction_subscripts_out_of_range_sample :
  (exists e, exn_cls e = IndexError /\
             make_prediction 5 (constant_model 1) constant_preprocessor
                             one_class_explainer constant_lime_explainer
                             default_session
             = (failed_session default_session e, Ok no_result)) /\
  (exists e, exn_cls e = IndexError /\
             make_prediction 5 (constant_model 1) empty_preprocessor
                             constant_explainer constant_lime_explainer
                             default_session
             = (failed_session default_session e, Ok no_result)) /\
  (exists e, exn_cls e = IndexError /\
             make_prediction 5 silent_model constant_preprocessor
                             constant_explainer constant_lime_explainer
                             default_session
             = (failed_session default_session e, Ok no_result)).
Proof.
  assert (Henc : encode_categorical (input_df default_session)
                 = (encoded_record default_sidebar, Ok tt))
    by reflexivity.
  split; [|split].
  - apply (proj1 (make_prediction_subscripts_out_of_range Z Z Z Z string 5
                    (constant_model 1) constant_preprocessor
                    one_class_explainer constant_lime_explainer
                    default_session _ [0] [1] Henc eq_refl eq_refl) [0]).
    + reflexivity.
    + simpl. lia.
  - apply (proj1 (proj2 (make_prediction_subscripts_out_of_range Z Z Z Z string
                    5 (constant_model 1) empty_preprocessor
                    constant_explainer constant_lime_explainer
                    default_session _ [] [1] Henc eq_refl eq_refl))
             (ShapList [0; 0]) 0); reflexivity.
  - apply (proj2 (proj2 (make_prediction_subscripts_out_of_range Z Z Z Z string
                    5 silent_model constant_preprocessor
                    constant_explainer constant_lime_explainer
                    default_session _ [0] [] Henc eq_refl eq_refl))
             (ShapList [0; 0]) 0 0 "<div>lime</div>"); reflexivity.
Defined.

(** X13. The integer dtype of an encoded column is wide enough for
    its codes: every code lies from -1 up to the maximum of the dtype,
    so none wraps around; with fewer than 127 distinct strings the
    dtype is [int8]. *)
Theorem encode_categorical_codes_fit_dtype :
  forall df i label values,
    well_formed df ->
    column_at df i = Some (label, ObjectSeries values) ->
    Z.of_nat (length (distinct_strings values)) <= int_max int64 ->
    exists df' dtype cs,
      encode_categorical df = (df', Ok tt) /\
      column_at df' i = Some (label, IntSeries dtype cs) /\
      (forall c, In c cs -> -1 <= c < int_max dtype) /\
      (Z.of_nat (length (distinct_strings values)) < 127 -> dtype = int8).
Proof.
  intros df i label values Hwf Hcol Hk.
  exists (encoded df),
         (coerce_indexer_dtype (length (categories str_compare values))),
         (codes str_compare values).
  split; [now apply encode_categorical_spec|].
  split; [now rewrite (column_at_encoded _ _ _ Hcol)|].
  rewrite length_categories. split.
  - intros c Hc. rewrite <- length_categories.
    apply codes_fit_dtype; [now rewrite length_categories | exact Hc].
  - intros H. unfold coerce_indexer_dtype.
    destruct (Z.ltb_spec (Z.of_nat (length (distinct_strings values)))
                (int_max int8)) as [_|H']; [reflexivity|].
    simpl in H'. lia.
Qed.

Lemma encode_categorical_codes_fit_dtype_sample :
  well_formed sample_frame /\
  column_at sample_frame 2
  = Some ("Loyal Customer", ObjectSeries yes_missing_no) /\
  Z.of_nat (length (distinct_strings yes_missing_no)) <= int_max int64 /\
  exists df' dtype cs,
    encode_categorical sample_frame = (df', Ok tt) /\
    column_at df' 2 = Some ("Loyal Customer", IntSeries dtype cs) /\
    (forall c, In c cs -> -1 <= c < int_max dtype) /\
    (Z.of_nat (length (distinct_strings yes_missing_no)) < 127 ->
     dtype = int8).
Proof.
  assert (Hwf : well_formed sample_frame)
    by (apply well_formedb_sound; reflexivity).
  assert (Hk : Z.of_nat (length (distinct_strings yes_missing_no))
               <= int_max int64)
    by (vm_compute; discriminate).
  split; [exact Hwf|]. split; [reflexivity|]. split; [exact Hk|].
  exact (encode_categorical_codes_fit_dtype sample_frame 2 "Loyal Customer"
           yes_missing_no Hwf eq_refl Hk).
Defined.
